(** * Type promotion in [jax/_src/dtypes.py]

    A shallow embedding of the dtype layer of JAX: the scalar class
    hierarchy behind [issubdtype], canonicalisation with respect to the
    [jax_enable_x64] flag, the two type promotion lattices, the least
    upper bound solver and [result_type] with its weak type rule.

    Python sets are [gset]s and Python dictionaries are [gmap]s; a
    function that can raise returns a [res]. *)

From stdpp Require Import base option list gmap fin_sets.

(** ** Exceptions *)

(** The five texts [_least_upper_bound] can put in a
    [TypePromotionError]: the four "no available implicit dtype promotion
    path" variants and the "Internal Type Promotion error" one. *)
Inductive PromotionMsg :=
| StrictMsg        (* "... when jax_numpy_dtype_promotion=strict ..." *)
| Float8Msg        (* "... 8-bit floats do not support implicit promotion ..." *)
| Int4Msg          (* "... 4-bit integers do not support implicit promotion ..." *)
| NoPathMsg        (* "... Try explicitly casting inputs to the desired output type." *)
| IllFormedMsg.    (* "Internal Type Promotion error: ... unique least upper bound ..." *)

(** [TypePromotionError] is declared as a subclass of [ValueError]; the
    two are kept apart here because every claim distinguishes them. *)
Inductive Exn :=
| ValueError
| TypeError
| KeyError
| AttributeError
| TypePromotionError (m : PromotionMsg).

Inductive res (A : Type) :=
| Ok (a : A)
| Raise (e : Exn).
Arguments Ok {A} a.
Arguments Raise {A} e.

#[global] Instance res_ret : MRet res := λ A, @Ok A.
#[global] Instance res_bind : MBind res := λ A B f r,
  match r with Ok a => f a | Raise e => Raise e end.
#[global] Instance res_fmap : FMap res := λ A B f r,
  match r with Ok a => Ok (f a) | Raise e => Raise e end.

(** ** Universe of types *)

(** The Python builtin classes that name scalars. *)
Inductive PyClass := py_bool | py_int | py_float | py_complex.

(** Subclasses of [np.generic]: NumPy's abstract and concrete scalar
    classes, the [ml_dtypes] scalar classes and the two classes declared
    in the module, [extended] and [prng_key]. *)
Inductive ScalarType :=
| np_generic | np_number | np_integer | np_signedinteger | np_unsignedinteger
| np_inexact | np_floating | np_complexfloating
| np_bool_
| np_uint8 | np_uint16 | np_uint32 | np_uint64
| np_int8 | np_int16 | np_int32 | np_int64
| np_float16 | np_float32 | np_float64
| np_complex64 | np_complex128
| float8_e4m3b11fnuz | float8_e4m3fn | float8_e4m3fnuz | float8_e5m2 | float8_e5m2fnuz
| bfloat16
| int4 | uint4
| extended | prng_key.

(** The [np.dtype] objects of [_jax_types]. *)
Inductive DType :=
| Bool
| UInt4 | UInt8 | UInt16 | UInt32 | UInt64
| Int4 | Int8 | Int16 | Int32 | Int64
| Float8_e4m3b11fnuz | Float8_e4m3fn | Float8_e4m3fnuz | Float8_e5m2 | Float8_e5m2fnuz
| BFloat16 | Float16 | Float32 | Float64
| Complex64 | Complex128.

(** The scalar classes of extended dtypes: [extended] and its subclass. *)
Inductive ExtendedScalar := ext_extended | ext_prng_key.

(** An instance of a class registered under [ExtendedDType]. The abstract
    base class declares one property, [type], a scalar class for extended
    dtypes; [ext_id] tells instances apart ([==] on them). *)
Record ExtendedDType := { ext_id : nat; ext_type : ExtendedScalar }.

(** What a value can carry as its dtype. *)
Inductive AnyDType :=
| ADType (d : DType)
| AExt (e : ExtendedDType).

(** [JAXType = Union[type, DType]]: a node handed to the solver. Extended
    dtypes reach it too, through [_lattice_result_type]. *)
Inductive JAXType :=
| JClass (c : PyClass)
| JDType (d : DType)
| JExt (e : ExtendedDType).

#[global] Instance PromotionMsg_eq_dec : EqDecision PromotionMsg.
Proof. solve_decision. Defined.
#[global] Instance Exn_eq_dec : EqDecision Exn.
Proof. solve_decision. Defined.
#[global] Instance res_eq_dec `{EqDecision A} : EqDecision (res A).
Proof. solve_decision. Defined.
#[global] Instance PyClass_eq_dec : EqDecision PyClass.
Proof. solve_decision. Defined.
#[global] Instance ScalarType_eq_dec : EqDecision ScalarType.
Proof. solve_decision. Defined.
#[global] Instance DType_eq_dec : EqDecision DType.
Proof. solve_decision. Defined.
#[global] Instance ExtendedScalar_eq_dec : EqDecision ExtendedScalar.
Proof. solve_decision. Defined.
#[global] Instance ExtendedDType_eq_dec : EqDecision ExtendedDType.
Proof. solve_decision. Defined.
#[global] Instance AnyDType_eq_dec : EqDecision AnyDType.
Proof. solve_decision. Defined.
#[global] Instance JAXType_eq_dec : EqDecision JAXType.
Proof. solve_decision. Defined.

(** Hashing: every class of objects above can be put in a set. *)
Definition PyClass_enum : list PyClass := [py_bool; py_int; py_float; py_complex].
Definition PyClass_code (c : PyClass) : nat :=
  match c with py_bool => 0 | py_int => 1 | py_float => 2 | py_complex => 3 end.
#[global] Instance PyClass_countable : Countable PyClass.
Proof.
  apply (inj_countable PyClass_code (λ n, PyClass_enum !! n)).
  by intros [].
Defined.

Definition ScalarType_enum : list ScalarType :=
  [ np_generic; np_number; np_integer; np_signedinteger; np_unsignedinteger;
    np_inexact; np_floating; np_complexfloating; np_bool_;
    np_uint8; np_uint16; np_uint32; np_uint64;
    np_int8; np_int16; np_int32; np_int64;
    np_float16; np_float32; np_float64; np_complex64; np_complex128;
    float8_e4m3b11fnuz; float8_e4m3fn; float8_e4m3fnuz; float8_e5m2;
    float8_e5m2fnuz; bfloat16; int4; uint4; extended; prng_key ].
Definition ScalarType_code (s : ScalarType) : nat :=
  match s with
  | np_generic => 0 | np_number => 1 | np_integer => 2 | np_signedinteger => 3
  | np_unsignedinteger => 4 | np_inexact => 5 | np_floating => 6
  | np_complexfloating => 7 | np_bool_ => 8
  | np_uint8 => 9 | np_uint16 => 10 | np_uint32 => 11 | np_uint64 => 12
  | np_int8 => 13 | np_int16 => 14 | np_int32 => 15 | np_int64 => 16
  | np_float16 => 17 | np_float32 => 18 | np_float64 => 19
  | np_complex64 => 20 | np_complex128 => 21
  | float8_e4m3b11fnuz => 22 | float8_e4m3fn => 23 | float8_e4m3fnuz => 24
  | float8_e5m2 => 25 | float8_e5m2fnuz => 26 | bfloat16 => 27
  | int4 => 28 | uint4 => 29 | extended => 30 | prng_key => 31
  end.
#[global] Instance ScalarType_countable : Countable ScalarType.
Proof.
  apply (inj_countable ScalarType_code (λ n, ScalarType_enum !! n)).
  by intros [].
Defined.

Definition DType_enum : list DType :=
  [ Bool; UInt4; UInt8; UInt16; UInt32; UInt64; Int4; Int8; Int16; Int32; Int64;
    Float8_e4m3b11fnuz; Float8_e4m3fn; Float8_e4m3fnuz; Float8_e5m2;
    Float8_e5m2fnuz; BFloat16; Float16; Float32; Float64; Complex64; Complex128 ].
Definition DType_code (d : DType) : nat :=
  match d with
  | Bool => 0 | UInt4 => 1 | UInt8 => 2 | UInt16 => 3 | UInt32 => 4 | UInt64 => 5
  | Int4 => 6 | Int8 => 7 | Int16 => 8 | Int32 => 9 | Int64 => 10
  | Float8_e4m3b11fnuz => 11 | Float8_e4m3fn => 12 | Float8_e4m3fnuz => 13
  | Float8_e5m2 => 14 | Float8_e5m2fnuz => 15
  | BFloat16 => 16 | Float16 => 17 | Float32 => 18 | Float64 => 19
  | Complex64 => 20 | Complex128 => 21
  end.
#[global] Instance DType_countable : Countable DType.
Proof.
  apply (inj_countable DType_code (λ n, DType_enum !! n)).
  by intros [].
Defined.

#[global] Instance ExtendedScalar_countable : Countable ExtendedScalar.
Proof.
  apply (inj_countable' (λ m, match m with ext_extended => false | ext_prng_key => true end)
                        (λ b : bool, if b then ext_prng_key else ext_extended)).
  by intros [].
Defined.

#[global] Instance ExtendedDType_countable : Countable ExtendedDType.
Proof.
  apply (inj_countable' (λ e, (ext_id e, ext_type e))
                        (λ p, {| ext_id := p.1; ext_type := p.2 |})).
  by intros [].
Defined.

#[global] Instance AnyDType_countable : Countable AnyDType.
Proof.
  apply (inj_countable'
    (λ a, match a with ADType d => inl d | AExt e => inr e end)
    (λ s, match s with inl d => ADType d | inr e => AExt e end)).
  by intros [].
Defined.

#[global] Instance JAXType_countable : Countable JAXType.
Proof.
  apply (inj_countable'
    (λ t, match t with
          | JClass c => inl c | JDType d => inr (inl d) | JExt e => inr (inr e)
          end)
    (λ s, match s with
          | inl c => JClass c | inr (inl d) => JDType d | inr (inr e) => JExt e
          end)).
  by intros [].
Defined.

(** ** Configuration

    The flags of [jax._src.config] the module reads. [default_dtype_bits]
    is read once, when the module is loaded. *)
Inductive Policy := standard | strict.
Inductive DefaultBits := bits32 | bits64.

#[global] Instance Policy_eq_dec : EqDecision Policy.
Proof. solve_decision. Defined.

Record Config := {
  enable_x64 : bool;
  numpy_dtype_promotion : Policy;
  default_dtype_bits : DefaultBits;
}.

(** ** Tables of the module *)

(** [np.dtype(x).type] for a dtype object. *)
Definition dtype_type (d : DType) : ScalarType :=
  match d with
  | Bool => np_bool_
  | UInt4 => uint4 | UInt8 => np_uint8 | UInt16 => np_uint16
  | UInt32 => np_uint32 | UInt64 => np_uint64
  | Int4 => int4 | Int8 => np_int8 | Int16 => np_int16
  | Int32 => np_int32 | Int64 => np_int64
  | Float8_e4m3b11fnuz => float8_e4m3b11fnuz | Float8_e4m3fn => float8_e4m3fn
  | Float8_e4m3fnuz => float8_e4m3fnuz | Float8_e5m2 => float8_e5m2
  | Float8_e5m2fnuz => float8_e5m2fnuz
  | BFloat16 => bfloat16 | Float16 => np_float16
  | Float32 => np_float32 | Float64 => np_float64
  | Complex64 => np_complex64 | Complex128 => np_complex128
  end.

Definition _custom_float_scalar_types : list ScalarType :=
  [ float8_e4m3b11fnuz; float8_e4m3fn; float8_e4m3fnuz; float8_e5m2;
    float8_e5m2fnuz; bfloat16 ].
Definition _custom_float_dtypes : list DType :=
  [ Float8_e4m3b11fnuz; Float8_e4m3fn; Float8_e4m3fnuz; Float8_e5m2;
    Float8_e5m2fnuz; BFloat16 ].
Definition _float8_dtypes : list DType :=
  [ Float8_e4m3b11fnuz; Float8_e4m3fn; Float8_e4m3fnuz; Float8_e5m2;
    Float8_e5m2fnuz ].
Definition _int4_dtypes : list DType := [ Int4; UInt4 ].

(** The character codes [dtype.kind] takes on the dtypes above. *)
Inductive Kind := kind_b | kind_i | kind_u | kind_f | kind_c | kind_V.

(** [_default_types]: fixed by [default_dtype_bits]. The values are
    scalar classes in the source; each stands here as the dtype that
    [np.dtype] makes of it. A key outside the five raises [KeyError]. *)
Definition _default_types (cfg : Config) (k : Kind) : res DType :=
  match k, default_dtype_bits cfg with
  | kind_b, _ => Ok Bool
  | kind_i, bits32 => Ok Int32   | kind_i, bits64 => Ok Int64
  | kind_u, bits32 => Ok UInt32  | kind_u, bits64 => Ok UInt64
  | kind_f, bits32 => Ok Float32 | kind_f, bits64 => Ok Float64
  | kind_c, bits32 => Ok Complex64 | kind_c, bits64 => Ok Complex128
  | kind_V, _ => Raise KeyError
  end.

(** [float_], the class put in place of a [None] operand. *)
Definition float_ (cfg : Config) : DType :=
  match default_dtype_bits cfg with bits32 => Float32 | bits64 => Float64 end.

(** [dtype.kind]. The [ml_dtypes] types are registered with NumPy under
    kind ['V']. *)
Definition kind (d : DType) : Kind :=
  match d with
  | Bool => kind_b
  | UInt8 | UInt16 | UInt32 | UInt64 => kind_u
  | Int8 | Int16 | Int32 | Int64 => kind_i
  | Float16 | Float32 | Float64 => kind_f
  | Complex64 | Complex128 => kind_c
  | UInt4 | Int4
  | Float8_e4m3b11fnuz | Float8_e4m3fn | Float8_e4m3fnuz | Float8_e5m2
  | Float8_e5m2fnuz | BFloat16 => kind_V
  end.

(** [_dtype_to_32bit_dtype.get(dtype_, dtype_)]. *)
Definition _dtype_to_32bit_dtype (d : DType) : option DType :=
  match d with
  | Int64 => Some Int32
  | UInt64 => Some UInt32
  | Float64 => Some Float32
  | Complex128 => Some Complex64
  | _ => None
  end.

(** [python_scalar_dtypes]. *)
Definition python_scalar_dtypes (c : PyClass) : DType :=
  match c with
  | py_bool => Bool
  | py_int => Int64
  | py_float => Float64
  | py_complex => Complex128
  end.

(** ** Enumeration of the JAX types *)

Definition i_ : JAXType := JClass py_int.
Definition f_ : JAXType := JClass py_float.
Definition c_ : JAXType := JClass py_complex.

Definition _weak_types : list JAXType := [ i_; f_; c_ ].
Definition _bool_types : list JAXType := [ JDType Bool ].
Definition _int_types : list JAXType :=
  JDType <$> [ UInt4; UInt8; UInt16; UInt32; UInt64; Int4; Int8; Int16; Int32; Int64 ].
Definition _float_types : list JAXType :=
  JDType <$> (_custom_float_dtypes ++ [ Float16; Float32; Float64 ]).
Definition _complex_types : list JAXType := JDType <$> [ Complex64; Complex128 ].
Definition _jax_types : list JAXType :=
  _bool_types ++ _int_types ++ _float_types ++ _complex_types.

(** ** The promotion lattice *)

(** A dictionary display [{k1: v1, ...}]: entries are stored left to
    right, a later entry replacing an earlier one with the same key. *)
Definition dict_of `{Countable K} {V} (items : list (K * V)) : gmap K V :=
  foldl (λ m kv, <[kv.1 := kv.2]> m) ∅ items.

(** [_type_promotion_lattice]: each type is mapped to its immediately
    higher types. [int4] and [uint4] are always present in this version
    of the module, so only that branch of the unpacking is kept. *)
Definition _type_promotion_lattice (p : Policy) : gmap JAXType (list JAXType) :=
  let b1 := JDType Bool in
  let _uint4 := JDType UInt4 in
  let u1 := JDType UInt8 in let u2 := JDType UInt16 in
  let u4 := JDType UInt32 in let u8 := JDType UInt64 in
  let _int4 := JDType Int4 in
  let i1 := JDType Int8 in let i2 := JDType Int16 in
  let i4 := JDType Int32 in let i8 := JDType Int64 in
  let f1_types := JDType <$> _float8_dtypes in
  let bf := JDType BFloat16 in let f2 := JDType Float16 in
  let f4 := JDType Float32 in let f8 := JDType Float64 in
  let c4 := JDType Complex64 in let c8 := JDType Complex128 in
  match p with
  | standard =>
      let out := dict_of (
        [ (b1, [i_]);
          (u1, [i2; u2]); (u2, [i4; u4]); (u4, [i8; u8]); (u8, [f_]);
          (i_, [u1; i1]); (i1, [i2]); (i2, [i4]); (i4, [i8]); (i8, [f_]);
          (f_, f1_types ++ [bf; f2; c_]) ]
        ++ ((λ t, (t, [])) <$> f1_types)
        ++ [ (bf, [f4]); (f2, [f4]); (f4, [f8; c4]); (f8, [c8]);
             (c_, [c4]); (c4, [c8]); (c8, []) ]) in
      let out := alter (λ l, l ++ [_int4]) i_ out in
      let out := <[_int4 := []]> out in
      let out := alter (λ l, l ++ [_uint4]) i_ out in
      let out := <[_uint4 := []]> out in
      out
  | strict =>
      dict_of (
        [ (i_, [f_] ++ _int_types);
          (f_, [c_] ++ _float_types);
          (c_, _complex_types) ]
        ++ ((λ t, (t, [])) <$> _jax_types))
  end.

(** ** Upper bounds *)

(** The union of [lattice[b]] over the members [b] of [upper_bounds[n]]. *)
Definition new_upper_bounds (lattice : gmap JAXType (list JAXType))
    (ub : gset JAXType) : res (gset JAXType) :=
  match mapM (λ b, lattice !! b) (elements ub) with
  | Some ls => Ok (⋃ (list_to_set <$> ls))
  | None => Raise KeyError
  end.

(** The [while True] loop of [_make_lattice_upper_bounds] for one node
    [n]; [None] when [fuel] iterations did not reach the [break]. *)
Fixpoint upper_bounds_loop (fuel : nat) (lattice : gmap JAXType (list JAXType))
    (n : JAXType) (ub : gset JAXType) : option (res (gset JAXType)) :=
  match fuel with
  | 0 => None
  | S fuel' =>
      match new_upper_bounds lattice ub with
      | Raise e => Some (Raise e)
      | Ok new =>
          if decide (n ∈ new) then Some (Raise ValueError)
          else if decide (new ⊆ ub) then Some (Ok ub)
          else upper_bounds_loop fuel' lattice n (ub ∪ new)
      end
  end.

(** The [for n in lattice] loop: the entry of each node only depends on
    the lattice, so the order of the traversal only selects which
    exception surfaces when several nodes fail. *)
Fixpoint upper_bounds_for (lattice : gmap JAXType (list JAXType))
    (ns : list JAXType) (upper_bounds : gmap JAXType (gset JAXType))
    : option (res (gmap JAXType (gset JAXType))) :=
  match ns with
  | [] => Some (Ok upper_bounds)
  | n :: ns' =>
      match upper_bounds_loop (S (size lattice)) lattice n {[ n ]} with
      | None => None
      | Some (Raise e) => Some (Raise e)
      | Some (Ok ub) => upper_bounds_for lattice ns' (<[n := ub]> upper_bounds)
      end
  end.

Definition make_upper_bounds (lattice : gmap JAXType (list JAXType))
    : option (res (gmap JAXType (gset JAXType))) :=
  let upper_bounds := set_to_map (λ node, (node, ({[ node ]} : gset JAXType))) (dom lattice) in
  upper_bounds_for lattice (elements (dom lattice)) upper_bounds.

Definition _make_lattice_upper_bounds (p : Policy)
    : option (res (gmap JAXType (gset JAXType))) :=
  make_upper_bounds (_type_promotion_lattice p).

(** The module constant [_lattice_upper_bounds], built when the module is
    loaded ([_lattice_upper_bounds_built] below: both constructions
    succeed). *)
Definition _lattice_upper_bounds (p : Policy) : gmap JAXType (gset JAXType) :=
  match _make_lattice_upper_bounds p with
  | Some (Ok upper_bounds) => upper_bounds
  | _ => ∅
  end.

(** ** The least upper bound solver *)

(** [n == d] for a node [n] and a dtype object [d], which is what
    [n in _float8_dtypes] tests: [np.dtype.__eq__] first makes a dtype of
    the other side, so a Python class compares as the dtype [np.dtype]
    gives it, and an extended dtype compares unequal. *)
Definition node_eq_dtype (n : JAXType) (d : DType) : bool :=
  match n with
  | JDType d' => bool_decide (d' = d)
  | JClass c => bool_decide (python_scalar_dtypes c = d)
  | JExt _ => false
  end.

Definition node_in (n : JAXType) (ds : list DType) : bool :=
  existsb (node_eq_dtype n) ds.

(** [set.intersection( *bounds )]: with no argument the unbound method
    raises [TypeError]. *)
Definition set_intersection (bounds : list (gset JAXType)) : res (gset JAXType) :=
  match bounds with
  | [] => Raise TypeError
  | b :: bs => Ok (foldl (∩) b bs)
  end.

(** [CUB.issubset(UB[c])], for a [c] that is a key of [UB]. *)
Definition covers (UB : gmap JAXType (gset JAXType)) (CUB : gset JAXType)
    (c : JAXType) : Prop :=
  match UB !! c with Some u => CUB ⊆ u | None => False end.

#[global] Instance covers_dec UB CUB c : Decision (covers UB CUB c).
Proof. unfold covers. destruct (UB !! c); apply _. Defined.

(** The set [LUB] of [_least_upper_bound]. Looking up [UB[n]] for an
    unknown input is turned into [ValueError] by the source; [UB[c]] in
    the comprehension is not guarded. *)
Definition least_upper_bound_set (UB : gmap JAXType (gset JAXType))
    (nodes : list JAXType) : res (gset JAXType) :=
  let N : gset JAXType := list_to_set nodes in
  bounds ← match mapM (λ n, UB !! n) (elements N) with
           | Some bounds => Ok bounds
           | None => Raise ValueError
           end;
  CUB ← set_intersection bounds;
  if decide (CUB ∩ N ≠ ∅) then Ok (CUB ∩ N)
  else if decide (set_Forall (λ c, is_Some (UB !! c)) CUB)
       then Ok (filter (covers UB CUB) CUB)
       else Raise KeyError.

(** The message of the [len(LUB) == 0] branch. *)
Definition no_path_message (cfg : Config) (nodes : list JAXType) : PromotionMsg :=
  if decide (numpy_dtype_promotion cfg = strict) then StrictMsg
  else if existsb (λ n, node_in n _float8_dtypes) nodes then Float8Msg
  else if existsb (λ n, node_in n _int4_dtypes) nodes then Int4Msg
  else NoPathMsg.

(** [_least_upper_bound] over a given table of upper bounds. *)
Definition least_upper_bound_in (UB : gmap JAXType (gset JAXType))
    (cfg : Config) (nodes : list JAXType) : res JAXType :=
  LUB ← least_upper_bound_set UB nodes;
  match elements LUB with
  | [c] => Ok c
  | [] => Raise (TypePromotionError (no_path_message cfg nodes))
  | _ => Raise (TypePromotionError IllFormedMsg)
  end.

(** [_least_upper_bound(jax_numpy_dtype_promotion, *nodes)]. The messages
    read the flag of the configuration, not the first argument. *)
Definition _least_upper_bound (cfg : Config) (jax_numpy_dtype_promotion : Policy)
    (nodes : list JAXType) : res JAXType :=
  least_upper_bound_in (_lattice_upper_bounds jax_numpy_dtype_promotion) cfg nodes.

(** ** Dtype specifiers *)

(** What the public functions accept where a dtype is expected: [None],
    a Python scalar class, a dtype object (or a name or concrete scalar
    class that [np.dtype] resolves to it), an extended dtype. *)
Inductive DTypeLike :=
| LNone
| LClass (c : PyClass)
| LDType (d : DType)
| LExt (e : ExtendedDType).

(** [np.dtype(x)]. [None] is NumPy's default, [float64]; the Python
    classes give the dtypes of [python_scalar_dtypes] ([int] is [int64]
    where NumPy's default integer has 64 bits); an extended dtype is no
    NumPy dtype. *)
Definition np_dtype (x : DTypeLike) : res DType :=
  match x with
  | LNone => Ok Float64
  | LClass c => Ok (python_scalar_dtypes c)
  | LDType d => Ok d
  | LExt _ => Raise TypeError
  end.

(** [np.dtype(t)] for a node. *)
Definition np_dtype_of_node (t : JAXType) : res DType :=
  match t with
  | JClass c => Ok (python_scalar_dtypes c)
  | JDType d => Ok d
  | JExt _ => Raise TypeError
  end.

(** [a if any(a is t for t in _weak_types) else np.dtype(a)]. *)
Definition promotion_node (a : DTypeLike) : res JAXType :=
  match a with
  | LClass c =>
      if bool_decide (JClass c ∈ _weak_types) then Ok (JClass c)
      else JDType <$> np_dtype a
  | _ => JDType <$> np_dtype a
  end.

Definition promote_types (cfg : Config) (a b : DTypeLike) : res DType :=
  a_tp ← promotion_node a;
  b_tp ← promotion_node b;
  lub ← _least_upper_bound cfg (numpy_dtype_promotion cfg) [a_tp; b_tp];
  np_dtype_of_node lub.

(** [promote_types] over a given table of upper bounds, to evaluate many
    pairs against one table. *)
Definition promote_types_over (UB : gmap JAXType (gset JAXType)) (cfg : Config)
    (a b : DTypeLike) : res DType :=
  a_tp ← promotion_node a;
  b_tp ← promotion_node b;
  lub ← least_upper_bound_in UB cfg [a_tp; b_tp];
  np_dtype_of_node lub.

(** ** The scalar class hierarchy and [issubdtype] *)

(** The base class of each scalar class ([np.generic] is the root). The
    [ml_dtypes] classes derive from [np.generic] directly, which is why
    [issubdtype] treats them apart. *)
Definition base_class (s : ScalarType) : option ScalarType :=
  match s with
  | np_generic => None
  | np_number => Some np_generic
  | np_integer => Some np_number
  | np_signedinteger | np_unsignedinteger => Some np_integer
  | np_inexact => Some np_number
  | np_floating | np_complexfloating => Some np_inexact
  | np_bool_ => Some np_generic
  | np_uint8 | np_uint16 | np_uint32 | np_uint64 => Some np_unsignedinteger
  | np_int8 | np_int16 | np_int32 | np_int64 => Some np_signedinteger
  | np_float16 | np_float32 | np_float64 => Some np_floating
  | np_complex64 | np_complex128 => Some np_complexfloating
  | float8_e4m3b11fnuz | float8_e4m3fn | float8_e4m3fnuz | float8_e5m2
  | float8_e5m2fnuz | bfloat16 | int4 | uint4 => Some np_generic
  | extended => Some np_generic
  | prng_key => Some extended
  end.

(** The class and the classes above it, at most [depth] of them. *)
Fixpoint superclasses (depth : nat) (s : ScalarType) : list ScalarType :=
  match depth with
  | 0 => []
  | S depth' =>
      s :: match base_class s with
           | Some b => superclasses depth' b
           | None => []
           end
  end.

(** [issubclass(a, b)] on scalar classes; no chain is longer than six. *)
Definition issubclass (a b : ScalarType) : bool :=
  bool_decide (b ∈ superclasses 6 a).

Definition ext_scalar (m : ExtendedScalar) : ScalarType :=
  match m with ext_extended => extended | ext_prng_key => prng_key end.

(** The arguments of [issubdtype]: a dtype specifier or a scalar class. *)
Inductive SubdtypeArg :=
| ALike (x : DTypeLike)
| AScalar (s : ScalarType).

(** [_issubclass(a, b)] for a scalar class [b]: [False] when [a] is no
    class, and the Python builtins are no subclasses of a scalar class. *)
Definition _issubclass (a : SubdtypeArg) (b : ScalarType) : bool :=
  match a with
  | AScalar s => issubclass s b
  | ALike _ => false
  end.

(** [a if _issubclass(a, np.generic) else np.dtype(a).type]; for an
    extended dtype, its [type] (the source rebinds [a = a.type]). *)
Definition sctype (a : SubdtypeArg) : ScalarType :=
  match a with
  | AScalar s => s
  | ALike LNone => np_float64
  | ALike (LClass c) => dtype_type (python_scalar_dtypes c)
  | ALike (LDType d) => dtype_type d
  | ALike (LExt e) => ext_scalar (ext_type e)
  end.

(** The end of [issubdtype], on the two scalar classes: the custom
    floats and the 4-bit integers first, then [np.issubdtype]. *)
Definition issubdtype_sctype (a_sctype b_sctype : ScalarType) : bool :=
  if bool_decide (a_sctype ∈ _custom_float_scalar_types) then
    bool_decide (b_sctype ∈ [a_sctype; np_floating; np_inexact; np_number; np_generic])
  else if bool_decide (a_sctype = int4) then
    bool_decide (b_sctype ∈ [a_sctype; np_signedinteger; np_integer; np_number; np_generic])
  else if bool_decide (a_sctype = uint4) then
    bool_decide (b_sctype ∈ [a_sctype; np_unsignedinteger; np_integer; np_number; np_generic])
  else issubclass a_sctype b_sctype.

Definition issubdtype (a b : SubdtypeArg) : bool :=
  if _issubclass b extended then
    match a with
    | ALike (LExt e) => _issubclass (AScalar (ext_scalar (ext_type e))) (sctype b)
    | AScalar _ => _issubclass a (sctype b)
    | ALike _ => _issubclass (AScalar (sctype a)) (sctype b)
    end
  else
    match b with
    | ALike (LExt eb) =>
        match a with
        | ALike (LExt ea) => bool_decide (ea = eb)
        | _ => false
        end
    | _ => issubdtype_sctype (sctype a) (sctype b)
    end.

(** ** Canonicalisation *)

Definition like_of_dtype (a : AnyDType) : DTypeLike :=
  match a with ADType d => LDType d | AExt e => LExt e end.

(** [_canonicalize_dtype]. Of the specifiers modelled only an extended
    dtype passes the first test, and it is returned as it is. *)
Definition _canonicalize_dtype (x64_enabled allow_extended_dtype : bool)
    (dtype : DTypeLike) : res AnyDType :=
  if issubdtype (ALike dtype) (AScalar extended) then
    if negb allow_extended_dtype then Raise ValueError
    else match dtype with
         | LExt e => Ok (AExt e)
         | _ => ADType <$> np_dtype dtype
         end
  else
    dtype_ ← np_dtype dtype;
    if x64_enabled then Ok (ADType dtype_)
    else Ok (ADType (default dtype_ (_dtype_to_32bit_dtype dtype_))).

Definition canonicalize_dtype (cfg : Config) (dtype : DTypeLike)
    (allow_extended_dtype : bool) : res AnyDType :=
  _canonicalize_dtype (enable_x64 cfg) allow_extended_dtype dtype.

(** ** Operands of [result_type] *)

(** A dtype specifier or a value: [None]; one of the Python classes
    [bool], [int], [float], [complex]; a Python scalar of such a class; a
    concrete scalar class such as [np.float32], named by its dtype; a
    dtype object; an extended dtype object; a value with a [dtype] and,
    through its [aval], a [weak_type] flag (a NumPy array or scalar has
    no [aval] and stands as a value whose flag is [False]); a value whose
    dtype is an extended dtype, which is never weakly typed. *)
Inductive Operand :=
| OpNone
| OpClass (c : PyClass)
| OpScalar (c : PyClass)
| OpScalarClass (d : DType)
| OpDType (d : DType)
| OpExtDType (e : ExtendedDType)
| OpArray (d : DType) (weak_type : bool)
| OpExtArray (e : ExtendedDType).

(** [dtype(x, canonicalize=...)]. A scalar class returns before the
    canonicalisation. [np.result_type] is the dtype itself for a dtype
    object or a value, and does not understand an extended dtype
    object. Every dtype of the universe modelled is in [_jax_dtype_set]. *)
Definition dtype (cfg : Config) (x : Operand) (canonicalize : bool) : res AnyDType :=
  let finish (dt : AnyDType) :=
    if canonicalize then canonicalize_dtype cfg (like_of_dtype dt) true else Ok dt in
  match x with
  | OpNone => Raise ValueError
  | OpClass c | OpScalar c => finish (ADType (python_scalar_dtypes c))
  | OpScalarClass d => Ok (ADType d)
  | OpExtArray e =>
      if issubdtype (ALike (LExt e)) (AScalar extended) then finish (AExt e)
      else Raise TypeError
  | OpDType d | OpArray d _ => finish (ADType d)
  | OpExtDType _ => Raise TypeError
  end.

(** [is_weakly_typed(x)]: [x.aval.weak_type], or [type(x) in _weak_types]
    for a value without [aval]. *)
Definition is_weakly_typed (x : Operand) : bool :=
  match x with
  | OpArray _ weak_type => weak_type
  | OpExtArray _ => false
  | OpScalar c => bool_decide (JClass c ∈ _weak_types)
  | _ => false
  end.

(** [any(value is typ for typ in _weak_types)]. *)
Definition is_weak_class (x : Operand) : bool :=
  match x with
  | OpClass c => bool_decide (JClass c ∈ _weak_types)
  | _ => false
  end.

Definition _dtype_and_weaktype (cfg : Config) (value : Operand) : res (AnyDType * bool) :=
  dt ← dtype cfg value false;
  Ok (dt, is_weak_class value || is_weakly_typed value).

(** [type(dtype.type(0).item())]: the Python class of a scalar of the
    dtype. The scalar class of an extended dtype is abstract and cannot
    be instantiated. *)
Definition item_class (a : AnyDType) : res PyClass :=
  match a with
  | ADType d =>
      Ok match d with
         | Bool => py_bool
         | UInt4 | UInt8 | UInt16 | UInt32 | UInt64
         | Int4 | Int8 | Int16 | Int32 | Int64 => py_int
         | Float8_e4m3b11fnuz | Float8_e4m3fn | Float8_e4m3fnuz | Float8_e5m2
         | Float8_e5m2fnuz | BFloat16 | Float16 | Float32 | Float64 => py_float
         | Complex64 | Complex128 => py_complex
         end
  | AExt _ => Raise TypeError
  end.

Definition node_of_dtype (a : AnyDType) : JAXType :=
  match a with ADType d => JDType d | AExt e => JExt e end.

(** [dtype == bool] and [dtype != bool_]: only the dtype [bool] equals
    the class. *)
Definition is_bool (a : AnyDType) : bool := bool_decide (a = ADType Bool).

Definition in_dtypes (a : AnyDType) (ds : list DType) : bool :=
  match a with ADType d => bool_decide (d ∈ ds) | AExt _ => false end.

Definition _jax_type (dtype : AnyDType) (weak_type : bool) : res JAXType :=
  if weak_type then
    if is_bool dtype then Ok (node_of_dtype dtype)
    else if in_dtypes dtype _custom_float_dtypes then Ok f_
    else JClass <$> item_class dtype
  else Ok (node_of_dtype dtype).

(** A node as an argument of [dtype]. *)
Definition operand_of_node (t : JAXType) : Operand :=
  match t with
  | JClass c => OpClass c
  | JDType d => OpDType d
  | JExt e => OpExtDType e
  end.

(** [zip( *(... for arg in args))] cannot be unpacked in two when there
    is no argument. *)
Definition _lattice_result_type (cfg : Config) (args : list Operand)
    : res (AnyDType * bool) :=
  pairs ← mapM (_dtype_and_weaktype cfg) args;
  match pairs with
  | [] => Raise ValueError
  | first :: _ =>
      let dtypes := pairs.*1 in
      let weak_types := pairs.*2 in
      '(out_dtype, out_weak_type) ←
        (if bool_decide (length dtypes = 1) then
           Ok (first.1, first.2)
         else if bool_decide (size (list_to_set dtypes : gset AnyDType) = 1)
                 && negb (forallb id weak_types) then
           Ok (first.1, false)
         else if forallb id weak_types
                 && negb (bool_decide (numpy_dtype_promotion cfg = strict)) then
           nodes ← mapM (λ dtype, _jax_type dtype false) dtypes;
           result_type ← _least_upper_bound cfg (numpy_dtype_promotion cfg)
                           (elements (list_to_set nodes : gset JAXType));
           out_dtype ← dtype cfg (operand_of_node result_type) false;
           Ok (out_dtype, true)
         else
           nodes ← mapM (λ dw, _jax_type dw.1 dw.2) pairs;
           result_type ← _least_upper_bound cfg (numpy_dtype_promotion cfg)
                           (elements (list_to_set nodes : gset JAXType));
           out_dtype ← dtype cfg (operand_of_node result_type) false;
           Ok (out_dtype, bool_decide (result_type ∈ _weak_types)));
      Ok (out_dtype, negb (is_bool out_dtype) && out_weak_type)
  end.

(** What [result_type] returns: a dtype, or a dtype and the weak flag. *)
Inductive ResultType :=
| RDType (dtype : AnyDType)
| RPair (dtype : AnyDType) (weak_type : bool).

#[global] Instance ResultType_eq_dec : EqDecision ResultType.
Proof. solve_decision. Defined.

(** [dtype.kind]; [ExtendedDType] declares no such attribute. *)
Definition dtype_kind (a : AnyDType) : res Kind :=
  match a with ADType d => Ok (kind d) | AExt _ => Raise AttributeError end.

Definition result_type (cfg : Config) (args : list Operand)
    (return_weak_type_flag : bool) : res ResultType :=
  if bool_decide (length args = 0) then Raise ValueError
  else
    '(dtype, weak_type) ←
      _lattice_result_type cfg
        ((λ arg, match arg with OpNone => OpScalarClass (float_ cfg) | _ => arg end) <$> args);
    dtype ← (if weak_type then
               k ← (if in_dtypes dtype _custom_float_dtypes then Ok kind_f
                    else dtype_kind dtype);
               default ← _default_types cfg k;
               canonicalize_dtype cfg (LDType default) false
             else canonicalize_dtype cfg (like_of_dtype dtype) true);
    Ok (if return_weak_type_flag then RPair dtype weak_type else RDType dtype).

(** An [AnyDType] as an argument of [result_type]. *)
Definition operand_of_dtype (a : AnyDType) : Operand :=
  match a with ADType d => OpDType d | AExt e => OpExtDType e end.

Definition safe_to_cast (cfg : Config) (input_dtype_or_value output_dtype_or_value : Operand)
    : res bool :=
  input_dtype ← dtype cfg input_dtype_or_value true;
  output_dtype ← dtype cfg output_dtype_or_value true;
  if bool_decide (input_dtype = output_dtype) then Ok true
  else
    r ← result_type cfg [input_dtype_or_value; operand_of_dtype output_dtype] false;
    Ok (bool_decide (r = RDType output_dtype)).

(** [scalar_type_of], on the dtype of its argument. *)
Definition scalar_type_of (typ : DType) : res PyClass :=
  if bool_decide (typ ∈ _custom_float_dtypes) then Ok py_float
  else if bool_decide (typ ∈ _int4_dtypes) then Ok py_int
  else if issubclass (dtype_type typ) np_bool_ then Ok py_bool
  else if issubclass (dtype_type typ) np_integer then Ok py_int
  else if issubclass (dtype_type typ) np_floating then Ok py_float
  else if issubclass (dtype_type typ) np_complexfloating then Ok py_complex
  else Raise TypeError.

(** ** Notions of the specification *)

(** The categories in the order bool, integer, float, complex. *)
Definition category_rank (c : PyClass) : nat :=
  match c with py_bool => 0 | py_int => 1 | py_float => 2 | py_complex => 3 end.

(** A weak tag and a concrete tag of a compatible category: the tag is
    of the category of the weak tag or of a later one. *)
Definition compatible_category (w : PyClass) (d : DType) : bool :=
  bool_decide (JClass w ∈ _weak_types)
  && match scalar_type_of d with
     | Ok c => category_rank w <=? category_rank c
     | Raise _ => false
     end.

(** The tags set apart from implicit promotion: the 8-bit floats and the
    4-bit integers. *)
Definition narrow_dtypes : list DType := _float8_dtypes ++ _int4_dtypes.

(** The concrete tags that lie below a narrow tag in the standard
    lattice: bool and the integers of 8 bits and more below an 8-bit
    float, bool alone below a 4-bit integer. *)
Definition below_narrow (t d : DType) : bool :=
  if bool_decide (t ∈ _float8_dtypes) then
    bool_decide (d ∈ [ Bool; UInt8; UInt16; UInt32; UInt64; Int8; Int16; Int32; Int64 ])
  else bool_decide (d = Bool).

(** The configured default signed integer type, [canonicalize_dtype(int_)]:
    64 bits wide only when both flags say so. *)
Definition default_int_dtype (cfg : Config) : DType :=
  match default_dtype_bits cfg, enable_x64 cfg with
  | bits64, true => Int64
  | _, _ => Int32
  end.

(** The configurations with the standard policy. *)
Definition standard_configs : list Config :=
  [ {| enable_x64 := false; numpy_dtype_promotion := standard; default_dtype_bits := bits32 |};
    {| enable_x64 := false; numpy_dtype_promotion := standard; default_dtype_bits := bits64 |};
    {| enable_x64 := true; numpy_dtype_promotion := standard; default_dtype_bits := bits32 |};
    {| enable_x64 := true; numpy_dtype_promotion := standard; default_dtype_bits := bits64 |} ].

(** Ways to write the operands of the end-to-end scenario: the bool
    tag, a weak integer, a concrete [float32]. *)
Definition bool_tags : list Operand := [ OpDType Bool; OpClass py_bool; OpScalarClass Bool ].
Definition weak_int_literals : list Operand := [ OpScalar py_int; OpClass py_int ].
Definition float32_values : list Operand :=
  [ OpArray Float32 false; OpScalarClass Float32; OpDType Float32 ].

(** The four 64-bit tags that 32-bit mode narrows. *)
Definition wide_dtypes : list DType := [ Int64; UInt64; Float64; Complex128 ].

(** ** The order read off a table of upper bounds *)

(** [b ∈ UB(a)], the source's [a ≤ b]. *)
Definition le_in (UB : gmap JAXType (gset JAXType)) (a b : JAXType) : Prop :=
  ∃ u, UB !! a = Some u ∧ b ∈ u.

(** [x ∈ CUB(N)]: [x] is an upper bound of every member of [N]. *)
Definition common_upper_bound (UB : gmap JAXType (gset JAXType))
    (N : gset JAXType) (x : JAXType) : Prop :=
  ∀ n, n ∈ N → le_in UB n x.

(** The reference definition: [c ∈ CUB(N)] and [c ≤ d] for all
    [d ∈ CUB(N)]. *)
Definition is_least_upper_bound (UB : gmap JAXType (gset JAXType))
    (N : gset JAXType) (c : JAXType) : Prop :=
  common_upper_bound UB N c ∧ ∀ d, common_upper_bound UB N d → le_in UB c d.

(** One step up the lattice. *)
Definition edge (lattice : gmap JAXType (list JAXType)) (a b : JAXType) : Prop :=
  ∃ l, lattice !! a = Some l ∧ b ∈ l.

(** What the solver needs of a table: it is a partial order on its keys. *)
Record upper_bounds_wf (UB : gmap JAXType (gset JAXType)) : Prop := {
  ub_refl n u : UB !! n = Some u → n ∈ u;
  ub_trans n u m : UB !! n = Some u → m ∈ u → ∃ um, UB !! m = Some um ∧ um ⊆ u;
  ub_antisym n m : le_in UB n m → le_in UB m n → n = m;
}.

(** ** Sample configurations and tables *)

(** The flags as JAX ships them: 32-bit mode, standard promotion. *)
Definition config_default : Config :=
  {| enable_x64 := false; numpy_dtype_promotion := standard; default_dtype_bits := bits64 |}.

Definition config_x64 : Config :=
  {| enable_x64 := true; numpy_dtype_promotion := standard; default_dtype_bits := bits64 |}.

Definition config_strict : Config :=
  {| enable_x64 := false; numpy_dtype_promotion := strict; default_dtype_bits := bits64 |}.

(** A table that is no partial order: [int16] and [uint16] bound each
    other, and both bound [int8]. *)
Definition ill_formed_upper_bounds : gmap JAXType (gset JAXType) :=
  dict_of [ (JDType Int8, {[ JDType Int16; JDType UInt16 ]});
            (JDType Int16, {[ JDType Int16; JDType UInt16 ]});
            (JDType UInt16, {[ JDType Int16; JDType UInt16 ]}) ].

(** ** Decidable equality of the arguments *)

#[global] Instance DTypeLike_eq_dec : EqDecision DTypeLike.
Proof. solve_decision. Defined.
#[global] Instance SubdtypeArg_eq_dec : EqDecision SubdtypeArg.
Proof. solve_decision. Defined.
#[global] Instance Operand_eq_dec : EqDecision Operand.
Proof. solve_decision. Defined.
#[global] Instance Kind_eq_dec : EqDecision Kind.
Proof. solve_decision. Defined.

(** ** Conversions between categories *)

(** [to_numeric_dtype]. *)
Definition to_numeric_dtype (dtype : DTypeLike) : res DType :=
  dtype_ ← np_dtype dtype;
  Ok (if bool_decide (dtype_ = Bool) then Int32 else dtype_).

(** [_dtype_to_inexact.get(dtype_, dtype_)]: the table has bool and the
    integers of 8 bits and more. *)
Definition _dtype_to_inexact (d : DType) : option DType :=
  match d with
  | Bool => Some Float32
  | UInt8 | Int8 | UInt16 | Int16 | UInt32 | Int32 => Some Float32
  | UInt64 | Int64 => Some Float64
  | _ => None
  end.

(** [to_inexact_dtype]. *)
Definition to_inexact_dtype (dtype : DTypeLike) : res DType :=
  dtype_ ← np_dtype dtype;
  Ok (default dtype_ (_dtype_to_inexact dtype_)).

(** [to_complex_dtype]. *)
Definition to_complex_dtype (dtype : DTypeLike) : res DType :=
  ftype ← to_inexact_dtype dtype;
  if bool_decide (ftype ∈ [Float64; Complex128]) then Ok Complex128
  else Ok Complex64.

(** [supports_inf]. *)
Definition supports_inf (dtype : DTypeLike) : res bool :=
  typ ← dtype_type <$> np_dtype dtype;
  if bool_decide (typ ∈ [float8_e4m3b11fnuz; float8_e4m3fn; float8_e4m3fnuz; float8_e5m2fnuz])
  then Ok false
  else Ok (issubdtype (ALike dtype) (AScalar np_inexact)).

(** ** Dtypes of Python scalars *)

(** [np.iinfo(dtype).min] and [np.iinfo(dtype).max] for NumPy's integer
    dtypes; [np.iinfo] raises [ValueError] on any other dtype. *)
Definition np_iinfo (d : DType) : res (Z * Z) :=
  match d with
  | Int8 => Ok (-128, 127)%Z
  | Int16 => Ok (-32768, 32767)%Z
  | Int32 => Ok (-2147483648, 2147483647)%Z
  | Int64 => Ok (-9223372036854775808, 9223372036854775807)%Z
  | UInt8 => Ok (0, 255)%Z
  | UInt16 => Ok (0, 65535)%Z
  | UInt32 => Ok (0, 4294967295)%Z
  | UInt64 => Ok (0, 18446744073709551615)%Z
  | _ => Raise ValueError
  end.

(** The outcome of [_scalar_type_to_dtype], which can raise
    [OverflowError] besides what [res] holds. *)
Inductive ScalarDType :=
| ScalarDTypeOf (r : res AnyDType)
| OverflowError.

(** [_scalar_type_to_dtype(typ, value)]; [value] is [None] or, for
    [typ = int], the Python integer. *)
Definition _scalar_type_to_dtype (cfg : Config) (typ : PyClass) (value : option Z)
    : ScalarDType :=
  match canonicalize_dtype cfg (LDType (python_scalar_dtypes typ)) false with
  | Raise e => ScalarDTypeOf (Raise e)
  | Ok dtype =>
      match typ, value with
      | py_int, Some value =>
          match dtype with
          | ADType d =>
              match np_iinfo d with
              | Raise e => ScalarDTypeOf (Raise e)
              | Ok (min, max) =>
                  if bool_decide (value < min)%Z || bool_decide (value > max)%Z
                  then OverflowError
                  else ScalarDTypeOf (Ok dtype)
              end
          | AExt _ => ScalarDTypeOf (Raise ValueError)
          end
      | _, _ => ScalarDTypeOf (Ok dtype)
      end
  end.

(** ** Dtypes requested by the user *)

(** How [check_user_dtype_supported] returns when it does not raise:
    silently, or after the warning that names the truncated dtype. *)
Inductive UserDTypeCheck :=
| Supported
| Truncated (truncated_dtype : AnyDType).

(** [check_user_dtype_supported(dtype)]; [fun_name] only changes the text
    of the messages. *)
Definition check_user_dtype_supported (cfg : Config) (dtype : DTypeLike)
    : res UserDTypeCheck :=
  if issubdtype (ALike dtype) (AScalar extended) then Ok Supported
  else if match dtype with LClass _ => true | _ => false end then Ok Supported
  else
    np_dtype_ ← np_dtype dtype;
    let is_custom_dtype :=
      bool_decide (dtype_type np_dtype_ ∈ _custom_float_scalar_types ++ [int4; uint4]) in
    if negb (bool_decide (kind np_dtype_ ∈ [kind_b; kind_i; kind_u; kind_f; kind_c]))
       && negb is_custom_dtype
    then Raise TypeError
    else if bool_decide (dtype ≠ LNone) then
      canonical ← canonicalize_dtype cfg dtype false;
      if bool_decide (ADType np_dtype_ ≠ canonical) then
        truncated_dtype ← canonicalize_dtype cfg dtype false;
        Ok (Truncated truncated_dtype)
      else Ok Supported
    else Ok Supported.

(** ** Notions for the further properties *)

(** A node lies on a cycle of the lattice. *)
Definition on_cycle (lattice : gmap JAXType (list JAXType)) (n : JAXType) : Prop :=
  tc (edge lattice) n n.

(** Every node reached from a key is a key. *)
Definition successors_closed (lattice : gmap JAXType (list JAXType)) : Prop :=
  ∀ n m, is_Some (lattice !! n) → rtc (edge lattice) n m → is_Some (lattice !! m).

(** The canonical form of a dtype under the flags of [cfg]. *)
Definition is_canonical (cfg : Config) (a : AnyDType) : Prop :=
  match a with
  | ADType d => enable_x64 cfg = false → d ∉ wide_dtypes
  | AExt _ => True
  end.

(** Two concrete tags promote under the standard policy: they are equal,
    or each one that is a narrow tag has the other one below it. *)
Definition standard_promotable (a b : DType) : bool :=
  bool_decide (a = b)
  || ((negb (bool_decide (a ∈ narrow_dtypes)) || below_narrow a b)
      && (negb (bool_decide (b ∈ narrow_dtypes)) || below_narrow b a)).

(** * Properties *)

(** ** Sets built by the solver *)

Lemma elem_of_foldl_intersection (x : JAXType) (bs : list (gset JAXType)) (b : gset JAXType) :
  x ∈ foldl (∩) b bs ↔ x ∈ b ∧ ∀ b', b' ∈ bs → x ∈ b'.
Proof.
  revert b. induction bs as [|b0 bs IH]; intros b; simpl.
  - split; [intros ?; split; [done|] | by intros [? _]].
    intros b' Hb'. by apply elem_of_nil in Hb'.
  - rewrite IH, elem_of_intersection. split.
    + intros [[??] Hbs]. split; [done|].
      intros b' [->|?]%elem_of_cons; auto.
    + intros [? Hbs]. split; [split; [done|]|].
      * apply Hbs. by left.
      * intros b' ?. apply Hbs. by right.
Qed.

(** A set with at most one member lists as [[]] or as that member. *)
Lemma elements_at_most_one (X : gset JAXType) :
  (∀ x y, x ∈ X → y ∈ X → x = y) →
  elements X = [] ∨ ∃ c, elements X = [c] ∧ c ∈ X.
Proof.
  intros Hone. destruct (set_choose_or_empty X) as [[c Hc]|Hempty].
  - right. exists c. split; [|done].
    assert (X = {[ c ]}) as ->; [|apply elements_singleton].
    apply set_eq. intros y. rewrite elem_of_singleton. split.
    + intros Hy. by apply Hone.
    + by intros ->.
  - left. apply leibniz_equiv in Hempty as ->. apply elements_empty.
Qed.

Section solver.
Variable UB : gmap JAXType (gset JAXType).

(** The bounds of the inputs, when all are keys of the table. *)
Lemma bounds_of_known (ns : list JAXType) :
  (∀ n, n ∈ ns → is_Some (UB !! n)) →
  ∃ bounds, mapM (λ n, UB !! n) ns = Some bounds
            ∧ Forall2 (λ n b, UB !! n = Some b) ns bounds.
Proof.
  intros Hknown.
  destruct (mapM (λ n, UB !! n) ns) as [bounds|] eqn:Hm.
  - exists bounds. split; [done|]. by apply mapM_Some.
  - apply mapM_None, Exists_exists in Hm as [n [Hn Hnone]].
    destruct (Hknown n Hn) as [u Hu]. congruence.
Qed.

Lemma elem_of_set_intersection (ns : list JAXType) (bounds : list (gset JAXType))
    (CUB : gset JAXType) (x : JAXType) :
  Forall2 (λ n b, UB !! n = Some b) ns bounds →
  set_intersection bounds = Ok CUB →
  x ∈ CUB ↔ ∀ n, n ∈ ns → le_in UB n x.
Proof.
  intros HF Hcub. destruct bounds as [|b bs]; [done|].
  injection Hcub as <-. rewrite elem_of_foldl_intersection.
  assert (∀ b', b' ∈ b :: bs ↔ ∃ n, n ∈ ns ∧ UB !! n = Some b') as Hbounds.
  { intros b'. split.
    - intros [i Hi]%list_elem_of_lookup.
      destruct (Forall2_lookup_r _ _ _ _ _ HF Hi) as (n & Hn & Hnb).
      exists n. split; [|done]. by eapply list_elem_of_lookup_2.
    - intros (n & [i Hi]%list_elem_of_lookup & Hn).
      destruct (Forall2_lookup_l _ _ _ _ _ HF Hi) as (b'' & Hb'' & Hnb).
      assert (b'' = b') as -> by congruence.
      by eapply list_elem_of_lookup_2. }
  split.
  - intros [Hx Hbs] n Hn.
    destruct (bounds_of_known ns) as (bounds & _ & HF').
    { intros n' [i Hi]%list_elem_of_lookup.
      destruct (Forall2_lookup_l _ _ _ _ _ HF Hi) as (b' & _ & ?). by exists b'. }
    apply list_elem_of_lookup in Hn as [i Hi].
    destruct (Forall2_lookup_l _ _ _ _ _ HF Hi) as (b' & Hb' & Hnb).
    exists b'. split; [done|].
    apply list_elem_of_lookup_2 in Hb'.
    apply elem_of_cons in Hb' as [->|Hb']; auto.
  - intros Hx.
    assert (∀ b', b' ∈ b :: bs → x ∈ b') as Hall.
    { intros b' (n & Hn & Hnb)%Hbounds.
      destruct (Hx n Hn) as (u & Hu & ?). congruence. }
    split; [apply Hall; by left|]. intros b' ?. apply Hall. by right.
Qed.

(** The set [LUB] when the inputs are keys of the table: [CUB] is the
    set of common upper bounds, and the shortcut is taken when one of
    them is an input. *)
Lemma least_upper_bound_set_known (nodes : list JAXType) :
  nodes ≠ [] →
  (∀ n, n ∈ nodes → is_Some (UB !! n)) →
  ∃ CUB : gset JAXType,
    (∀ x, x ∈ CUB ↔ common_upper_bound UB (list_to_set nodes) x) ∧
    least_upper_bound_set UB nodes =
      if decide (CUB ∩ list_to_set nodes ≠ ∅) then Ok (CUB ∩ list_to_set nodes)
      else if decide (set_Forall (λ c, is_Some (UB !! c)) CUB)
           then Ok (filter (covers UB CUB) CUB)
           else Raise KeyError.
Proof.
  intros Hne Hknown. unfold least_upper_bound_set.
  set (N := list_to_set nodes : gset JAXType).
  destruct (bounds_of_known (elements N)) as (bounds & -> & HF).
  { intros n Hn. apply Hknown. by apply elem_of_elements, elem_of_list_to_set in Hn. }
  destruct bounds as [|b bs].
  { apply Forall2_nil_inv_r in HF. apply elements_empty_inv, leibniz_equiv in HF.
    destruct nodes as [|n ns]; [done|].
    assert (n ∈ N) as Hn by (apply elem_of_list_to_set; by left).
    rewrite HF in Hn. by apply not_elem_of_empty in Hn. }
  exists (foldl (∩) b bs). split; [|done].
  intros x. rewrite (elem_of_set_intersection (elements N) (b :: bs)); [|done..].
  unfold common_upper_bound. by setoid_rewrite elem_of_elements.
Qed.

Hypothesis Hwf : upper_bounds_wf UB.

Lemma le_in_refl n : is_Some (UB !! n) → le_in UB n n.
Proof. intros [u Hu]. exists u. split; [done|]. by eapply ub_refl. Qed.

Lemma le_in_trans a b c : le_in UB a b → le_in UB b c → le_in UB a c.
Proof.
  intros (ua & Hua & Hb) (ub & Hub & Hc).
  destruct (ub_trans UB Hwf a ua b Hua Hb) as (ub' & Hub' & Hsub).
  exists ua. split; [done|]. apply Hsub. congruence.
Qed.

Lemma least_upper_bound_unique N c c' :
  is_least_upper_bound UB N c → is_least_upper_bound UB N c' → c = c'.
Proof.
  intros [Hc Hleast] [Hc' Hleast']. apply (ub_antisym UB Hwf); auto.
Qed.

(** The solver computes the reference definition. *)
Lemma least_upper_bound_in_spec (cfg : Config) (nodes : list JAXType) :
  nodes ≠ [] →
  (∀ n, n ∈ nodes → is_Some (UB !! n)) →
  (∀ c, least_upper_bound_in UB cfg nodes = Ok c
        ↔ is_least_upper_bound UB (list_to_set nodes) c) ∧
  ((¬ ∃ c, is_least_upper_bound UB (list_to_set nodes) c) →
     least_upper_bound_in UB cfg nodes
     = Raise (TypePromotionError (no_path_message cfg nodes))).
Proof.
  intros Hne Hknown.
  destruct (least_upper_bound_set_known nodes Hne Hknown) as (CUB & HCUB & Hset).
  set (N := list_to_set nodes : gset JAXType) in *.
  assert (∃ n0, n0 ∈ N) as [n0 Hn0].
  { destruct nodes as [|n ns]; [done|]. exists n. apply elem_of_list_to_set. by left. }
  assert (∀ n, n ∈ N → is_Some (UB !! n)) as HknownN.
  { intros n Hn. apply Hknown. by apply elem_of_list_to_set in Hn. }
  assert (∀ c, c ∈ CUB → is_Some (UB !! c)) as Hkeys.
  { intros c Hc. apply HCUB in Hc. destruct (Hc n0 Hn0) as (u & Hu & Hcu).
    destruct (ub_trans UB Hwf n0 u c Hu Hcu) as (uc & ? & _). by exists uc. }
  assert (∀ c, c ∈ CUB → covers UB CUB c ↔ ∀ d, d ∈ CUB → le_in UB c d) as Hcovers.
  { intros c [uc Huc]%Hkeys. unfold covers, le_in. rewrite Huc. split.
    - intros Hsub d Hd. exists uc. split; [done|]. by apply Hsub.
    - intros Hall d Hd. destruct (Hall d Hd) as (u & Hu & ?). congruence. }
  (* the members of [LUB] are the least upper bounds *)
  assert (∃ LUB : gset JAXType, least_upper_bound_set UB nodes = Ok LUB
            ∧ ∀ c, c ∈ LUB ↔ is_least_upper_bound UB N c) as (LUB & HLUB & Hmem).
  { rewrite Hset. destruct (decide (CUB ∩ N ≠ ∅)) as [Hshort|Hshort].
    - eexists. split; [done|]. intros c. rewrite elem_of_intersection. split.
      + intros [Hc HcN]. split; [by apply HCUB|].
        intros d Hd. by apply Hd.
      + intros [Hc Hleast].
        apply set_choose_L in Hshort as [x [Hx HxN]%elem_of_intersection].
        assert (c = x) as ->; [|done].
        apply (ub_antisym UB Hwf).
        * apply Hleast. by apply HCUB.
        * by apply Hc.
    - rewrite decide_True by (intros c; apply Hkeys).
      eexists. split; [done|]. intros c. rewrite elem_of_filter. split.
      + intros [Hcov Hc]. split; [by apply HCUB|].
        intros d Hd%HCUB. by apply (Hcovers c).
      + intros [Hc%HCUB Hleast]. split; [|done].
        apply Hcovers; [done|]. intros d Hd%HCUB. by apply Hleast. }
  unfold least_upper_bound_in. rewrite HLUB. simpl.
  destruct (elements_at_most_one LUB) as [Hnil|(c0 & Hone & Hc0)].
  { intros x y Hx%Hmem Hy%Hmem. by eapply least_upper_bound_unique. }
  - rewrite Hnil. split; [|done].
    intros c. split; [done|]. intros Hc%Hmem%elem_of_elements.
    rewrite Hnil in Hc. by apply elem_of_nil in Hc.
  - rewrite Hone. split.
    + intros c. split.
      * intros [= <-]. by apply Hmem.
      * intros Hc. f_equal. apply Hmem in Hc0. by eapply least_upper_bound_unique.
    + intros Hnone. destruct Hnone. exists c0. by apply Hmem.
Qed.
End solver.

(** ** The table of upper bounds is the reflexive transitive closure *)

Section upper_bounds.
Variable lattice : gmap JAXType (list JAXType).

Lemma new_upper_bounds_Ok (ub new : gset JAXType) :
  new_upper_bounds lattice ub = Ok new →
  (∀ b, b ∈ ub → is_Some (lattice !! b))
  ∧ ∀ m, m ∈ new ↔ ∃ b, b ∈ ub ∧ edge lattice b m.
Proof.
  unfold new_upper_bounds.
  destruct (mapM _ _) as [ls|] eqn:Hm; [|done]. intros [= <-].
  apply mapM_Some in Hm. split.
  - intros b [i Hi]%elem_of_elements%list_elem_of_lookup.
    destruct (Forall2_lookup_l _ _ _ _ _ Hm Hi) as (l & _ & ?). by exists l.
  - intros m. rewrite elem_of_union_list. split.
    + intros (X & [l [-> [i Hi]%list_elem_of_lookup]]%list_elem_of_fmap & HmX).
      destruct (Forall2_lookup_r _ _ _ _ _ Hm Hi) as (b & Hb & Hbl).
      exists b. split.
      * by eapply elem_of_elements, list_elem_of_lookup_2.
      * exists l. split; [done|]. by apply elem_of_list_to_set in HmX.
    + intros (b & [i Hi]%elem_of_elements%list_elem_of_lookup & l & Hl & Hml).
      destruct (Forall2_lookup_l _ _ _ _ _ Hm Hi) as (l' & Hl' & Hbl).
      assert (l' = l) as -> by congruence.
      exists (list_to_set l). split.
      * apply list_elem_of_fmap. exists l. split; [done|].
        by eapply list_elem_of_lookup_2.
      * by apply elem_of_list_to_set.
Qed.

Lemma new_upper_bounds_Raise (ub : gset JAXType) e :
  new_upper_bounds lattice ub = Raise e → ¬ ub ⊆ dom lattice.
Proof.
  unfold new_upper_bounds.
  destruct (mapM _ _) as [ls|] eqn:Hm; [done|]. intros _ Hsub.
  apply mapM_None, Exists_exists in Hm as (b & Hb%elem_of_elements & Hnone).
  apply Hsub, elem_of_dom in Hb as [l Hl]. congruence.
Qed.

Lemma new_upper_bounds_known (ub : gset JAXType) :
  ub ⊆ dom lattice → ∃ new, new_upper_bounds lattice ub = Ok new.
Proof.
  intros Hsub. destruct (new_upper_bounds lattice ub) as [new|e] eqn:Hnew.
  - by exists new.
  - by apply new_upper_bounds_Raise in Hnew.
Qed.

(** The loop ends: every turn that goes on adds a key of the lattice
    to the set, or the next one stops at a missing key. *)
Lemma upper_bounds_loop_terminates (fuel : nat) (n : JAXType) (ub : gset JAXType) :
  0 < fuel →
  (ub ⊆ dom lattice → S (size (dom lattice)) < fuel + size ub) →
  is_Some (upper_bounds_loop fuel lattice n ub).
Proof.
  revert ub. induction fuel as [|fuel IH]; intros ub Hpos Hsize; [lia|].
  simpl. destruct (new_upper_bounds lattice ub) as [new|e] eqn:Hnew; [|done].
  destruct (decide (n ∈ new)); [done|].
  destruct (decide (new ⊆ ub)) as [|Hgrow]; [done|].
  assert (ub ⊆ dom lattice) as Hsub.
  { intros b Hb. apply new_upper_bounds_Ok in Hnew as [Hkeys _].
    by apply elem_of_dom, Hkeys. }
  specialize (Hsize Hsub).
  assert (size ub < size (ub ∪ new)) as Hlt.
  { apply subset_size. set_solver. }
  assert (size ub ≤ size (dom lattice)) by by apply subseteq_size.
  apply IH; [lia|]. intros _. lia.
Qed.

(** What the loop returns for [n]: the nodes reachable from [n]; all
    of them are keys, and none of them steps back to [n]. *)
Lemma upper_bounds_loop_Ok (fuel : nat) (n : JAXType) (ub r : gset JAXType) :
  n ∈ ub →
  (∀ m, m ∈ ub → rtc (edge lattice) n m) →
  upper_bounds_loop fuel lattice n ub = Some (Ok r) →
  (∀ m, m ∈ r ↔ rtc (edge lattice) n m)
  ∧ (∀ m, m ∈ r → is_Some (lattice !! m))
  ∧ (∀ m, rtc (edge lattice) n m → ¬ edge lattice m n).
Proof.
  revert ub. induction fuel as [|fuel IH]; intros ub Hn Hreach; [done|].
  simpl. destruct (new_upper_bounds lattice ub) as [new|e] eqn:Hnew; [|done].
  apply new_upper_bounds_Ok in Hnew as [Hkeys Hnew].
  destruct (decide (n ∈ new)) as [|Hacyclic]; [done|].
  destruct (decide (new ⊆ ub)) as [Hclosed|Hgrow].
  - intros [= <-].
    assert (∀ m, rtc (edge lattice) n m → m ∈ ub) as Hall.
    { intros m Hm. apply (rtc_ind_r (R:=edge lattice) (λ m, m ∈ ub) n); [done| |done].
      intros b c _ Hbc Hb. apply Hclosed, Hnew. by exists b. }
    split; [|split].
    + intros m. split; [apply Hreach | apply Hall].
    + done.
    + intros m Hm Hback. apply Hacyclic, Hnew. exists m. split; [by apply Hall | done].
  - apply IH.
    + by apply elem_of_union_l.
    + intros m [Hm|Hm]%elem_of_union; [by apply Hreach|].
      apply Hnew in Hm as (b & Hb & Hbm). eapply rtc_r; [by apply Hreach | done].
Qed.

Lemma upper_bounds_for_terminates (ns : list JAXType) acc :
  (∀ n, n ∈ ns → n ∈ dom lattice) →
  is_Some (upper_bounds_for lattice ns acc).
Proof.
  revert acc. induction ns as [|n ns IH]; intros acc Hns; [done|].
  cbn [upper_bounds_for].
  destruct (upper_bounds_loop_terminates (S (size lattice)) n {[ n ]}) as [r Hr].
  { lia. }
  { intros _. rewrite size_dom, size_singleton. lia. }
  rewrite Hr. destruct r as [ub|e]; [|done].
  apply IH. intros n' ?. apply Hns. by right.
Qed.

Lemma upper_bounds_for_Ok (ns : list JAXType) acc UB :
  upper_bounds_for lattice ns acc = Some (Ok UB) →
  ∀ n, (n ∈ ns → ∃ r, upper_bounds_loop (S (size lattice)) lattice n {[ n ]} = Some (Ok r)
                      ∧ UB !! n = Some r)
       ∧ (n ∉ ns → UB !! n = acc !! n).
Proof.
  revert acc. induction ns as [|n0 ns IH]; intros acc; cbn [upper_bounds_for].
  - intros [= <-] n. split; [by intros ?%elem_of_nil | done].
  - destruct (upper_bounds_loop _ _ _ _) as [[r0|e]|] eqn:Hloop; [|done..].
    intros Hfor n. destruct (IH _ Hfor n) as [Hin Hout]. split.
    + intros [->|Hn]%elem_of_cons; [|by apply Hin].
      destruct (decide (n0 ∈ ns)) as [Hn0|Hn0]; [by apply Hin|].
      exists r0. split; [done|]. rewrite (Hout Hn0). apply lookup_insert_eq.
    + intros [Hne Hn]%not_elem_of_cons. rewrite (Hout Hn).
      by apply lookup_insert_ne.
Qed.

(** The construction always ends. *)
Lemma make_upper_bounds_terminates : is_Some (make_upper_bounds lattice).
Proof.
  apply upper_bounds_for_terminates. intros n Hn. by apply elem_of_elements in Hn.
Qed.

Variable UB : gmap JAXType (gset JAXType).
Hypothesis Hmake : make_upper_bounds lattice = Some (Ok UB).

(** The entry of a key holds the nodes that the lattice reaches from
    it; other nodes have no entry. *)
Lemma make_upper_bounds_lookup n :
  match UB !! n with
  | Some u => is_Some (lattice !! n)
              ∧ (∀ m, m ∈ u ↔ rtc (edge lattice) n m)
              ∧ (∀ m, m ∈ u → is_Some (lattice !! m))
              ∧ (∀ m, rtc (edge lattice) n m → ¬ edge lattice m n)
  | None => lattice !! n = None
  end.
Proof.
  destruct (upper_bounds_for_Ok _ _ _ Hmake n) as [Hin Hout].
  destruct (decide (n ∈ dom lattice)) as [Hn|Hn].
  - destruct Hin as (r & Hloop & ->); [by apply elem_of_elements|].
    split; [by apply elem_of_dom|].
    eapply upper_bounds_loop_Ok; [| |done].
    + by apply elem_of_singleton.
    + by intros m ->%elem_of_singleton.
  - rewrite Hout by by rewrite elem_of_elements.
    assert (set_to_map (λ node, (node, ({[ node ]} : gset JAXType))) (dom lattice) !! n
            = (None : option (gset JAXType))) as ->.
    { apply eq_None_not_Some. intros [u Hu].
      apply (lookup_set_to_map (M:=gmap JAXType)) in Hu as (y & Hy & [= -> _]); [done|].
      by intros y y' _ _ [=]. }
    by apply not_elem_of_dom.
Qed.

Lemma make_upper_bounds_le_in n m :
  le_in UB n m ↔ is_Some (lattice !! n) ∧ rtc (edge lattice) n m.
Proof.
  pose proof (make_upper_bounds_lookup n) as Hn. unfold le_in. split.
  - intros (u & Hu & Hm). rewrite Hu in Hn. destruct Hn as (? & Hreach & _).
    split; [done|]. by apply Hreach.
  - intros [[l Hl] Hm]. destruct (UB !! n) as [u|]; [|congruence].
    exists u. split; [done|]. by apply Hn.
Qed.

(** A table that was built is a partial order on its keys. *)
Lemma make_upper_bounds_wf : upper_bounds_wf UB.
Proof.
  split.
  - intros n u Hu. pose proof (make_upper_bounds_lookup n) as Hn.
    rewrite Hu in Hn. by apply Hn.
  - intros n u m Hu Hm. pose proof (make_upper_bounds_lookup n) as Hn.
    rewrite Hu in Hn. destruct Hn as (_ & Hreach & Hkeys & _).
    pose proof (make_upper_bounds_lookup m) as Hm'.
    destruct (UB !! m) as [um|].
    + exists um. split; [done|]. destruct Hm' as (_ & Hreach' & _).
      intros x Hx. apply Hreach. etrans; [by apply Hreach | by apply Hreach'].
    + destruct (Hkeys m Hm). congruence.
  - intros n m [Hn Hnm]%make_upper_bounds_le_in [Hm Hmn]%make_upper_bounds_le_in.
    destruct (decide (n = m)) as [|Hne]; [done|]. exfalso.
    apply rtc_inv_r in Hmn as [->|(x & Hmx & Hxn)]; [done|].
    pose proof (make_upper_bounds_lookup n) as Hlook.
    destruct (UB !! n) as [u|]; [|destruct Hn; congruence].
    destruct Hlook as (_ & _ & _ & Hacyclic).
    apply (Hacyclic x); [|done]. by etrans.
Qed.
End upper_bounds.

(** ** The two tables of the module *)

Lemma _lattice_upper_bounds_built (p : Policy) :
  _make_lattice_upper_bounds p = Some (Ok (_lattice_upper_bounds p)).
Proof.
  unfold _lattice_upper_bounds.
  assert (match _make_lattice_upper_bounds p with
          | Some (Ok _) => true
          | _ => false
          end = true) as Hbuilt by (destruct p; vm_compute; reflexivity).
  by destruct (_make_lattice_upper_bounds p) as [[UB|e]|].
Qed.

Lemma _lattice_upper_bounds_wf (p : Policy) : upper_bounds_wf (_lattice_upper_bounds p).
Proof.
  eapply make_upper_bounds_wf, _lattice_upper_bounds_built.
Qed.

(** The nodes known to a lattice are the weak types and the JAX types,
    under either policy. *)
Lemma _type_promotion_lattice_dom (p : Policy) :
  dom (_type_promotion_lattice p) = list_to_set (_weak_types ++ _jax_types).
Proof. apply (bool_decide_eq_true_1 _). destruct p; vm_compute; reflexivity. Qed.

Lemma _lattice_upper_bounds_known (p : Policy) (n : JAXType) :
  is_Some (_lattice_upper_bounds p !! n) ↔ n ∈ _weak_types ++ _jax_types.
Proof.
  rewrite <-(elem_of_list_to_set (C:=gset JAXType)), <-(_type_promotion_lattice_dom p).
  rewrite elem_of_dom.
  pose proof (make_upper_bounds_lookup _ _ (_lattice_upper_bounds_built p) n) as Hn.
  destruct (_lattice_upper_bounds p !! n) as [u|].
  - destruct Hn as [Hkey _]. split; [done | by eauto].
  - rewrite Hn. split; by intros [? [=]].
Qed.

(** ** The solver on the tables of the module *)

(** C1. For either policy and a non-empty list of nodes known to its
    lattice, [_least_upper_bound] returns the least upper bound of the
    reference definition, over the table that holds for each node the
    nodes the lattice reaches from it: an input that is a common upper
    bound of all inputs is returned (and is the only such input), and
    otherwise the common upper bound [c] with [CUB ⊆ UB(c)] is returned,
    which is the only one. *)
Theorem least_upper_bound_reference (cfg : Config) (p : Policy) (nodes : list JAXType) :
  nodes ≠ [] →
  (∀ n, n ∈ nodes → n ∈ _weak_types ++ _jax_types) →
  let UB := _lattice_upper_bounds p in
  let N : gset JAXType := list_to_set nodes in
  (∀ n m, le_in UB n m
          ↔ n ∈ _weak_types ++ _jax_types ∧ rtc (edge (_type_promotion_lattice p)) n m)
  ∧ (∀ c, _least_upper_bound cfg p nodes = Ok c ↔ is_least_upper_bound UB N c)
  ∧ (∀ x, x ∈ N → common_upper_bound UB N x →
          _least_upper_bound cfg p nodes = Ok x
          ∧ ∀ y, y ∈ N → common_upper_bound UB N y → y = x)
  ∧ ((¬ ∃ x, x ∈ N ∧ common_upper_bound UB N x) →
     ∀ c, common_upper_bound UB N c →
          (∀ d, common_upper_bound UB N d → le_in UB c d) →
          _least_upper_bound cfg p nodes = Ok c
          ∧ ∀ c', common_upper_bound UB N c' →
                  (∀ d, common_upper_bound UB N d → le_in UB c' d) → c' = c).
Proof.
  intros Hne Hknown UB N.
  pose proof (_lattice_upper_bounds_wf p) as Hwf. fold UB in Hwf.
  assert (∀ n, n ∈ nodes → is_Some (UB !! n)) as HknownUB.
  { intros n Hn. by apply _lattice_upper_bounds_known, Hknown. }
  destruct (least_upper_bound_in_spec UB Hwf cfg nodes Hne HknownUB) as [Hspec _].
  fold N in Hspec.
  assert (∀ x, x ∈ N → common_upper_bound UB N x → is_least_upper_bound UB N x) as Hshort.
  { intros x Hx Hcub. split; [done|]. intros d Hd. by apply Hd. }
  split; [|split; [|split]].
  - intros n m. unfold UB.
    rewrite (make_upper_bounds_le_in _ _ (_lattice_upper_bounds_built p)).
    rewrite <-(_lattice_upper_bounds_known p n).
    pose proof (make_upper_bounds_lookup _ _ (_lattice_upper_bounds_built p) n) as Hn.
    destruct (_lattice_upper_bounds p !! n) as [u|].
    + destruct Hn as [Hkey _]. split; intros [? ?]; by eauto.
    + rewrite Hn. split; by intros [[? [=]] _].
  - done.
  - intros x Hx Hcub. split; [by apply Hspec, Hshort|].
    intros y Hy Hcub'. eapply (least_upper_bound_unique UB Hwf); by apply Hshort.
  - intros _ c Hc Hleast. split; [by apply Hspec|].
    intros c' Hc' Hleast'. by eapply (least_upper_bound_unique UB Hwf).
Qed.

Lemma least_upper_bound_reference_witness :
  [JDType Int8; JDType UInt8] ≠ []
  ∧ (∀ n, n ∈ [JDType Int8; JDType UInt8] → n ∈ _weak_types ++ _jax_types)
  ∧ (∀ c, _least_upper_bound config_default standard [JDType Int8; JDType UInt8] = Ok c
          ↔ is_least_upper_bound (_lattice_upper_bounds standard)
              (list_to_set [JDType Int8; JDType UInt8]) c).
Proof.
  assert ([JDType Int8; JDType UInt8] ≠ []) as Hne by done.
  assert (∀ n, n ∈ [JDType Int8; JDType UInt8] → n ∈ _weak_types ++ _jax_types) as Hknown.
  { intros n Hn. apply list_elem_of_In. apply list_elem_of_In in Hn. simpl in *.
    intuition (subst; auto 30). }
  split; [done|]. split; [done|].
  apply (least_upper_bound_reference config_default standard _ Hne Hknown).
Defined.

(** The inputs the messages look for. *)
Lemma node_in_float8 (n : JAXType) :
  node_in n _float8_dtypes = true ↔ n ∈ JDType <$> _float8_dtypes.
Proof.
  rewrite <-(bool_decide_eq_true (n ∈ JDType <$> _float8_dtypes)).
  assert (node_in n _float8_dtypes = bool_decide (n ∈ JDType <$> _float8_dtypes)) as ->; [|done].
  destruct n as [[]|[]|e]; vm_compute; reflexivity.
Qed.

Lemma node_in_int4 (n : JAXType) :
  node_in n _int4_dtypes = true ↔ n ∈ JDType <$> _int4_dtypes.
Proof.
  rewrite <-(bool_decide_eq_true (n ∈ JDType <$> _int4_dtypes)).
  assert (node_in n _int4_dtypes = bool_decide (n ∈ JDType <$> _int4_dtypes)) as ->; [|done].
  destruct n as [[]|[]|e]; vm_compute; reflexivity.
Qed.

Lemma existsb_elem_of {A} (f : A → bool) (l : list A) :
  existsb f l = true ↔ ∃ x, x ∈ l ∧ f x = true.
Proof.
  rewrite existsb_exists. by setoid_rewrite list_elem_of_In.
Qed.

(** C2. When the set of candidates is empty the solver raises
    [TypePromotionError] with a "no promotion path" message chosen in
    this order: the strict policy is active; some input is an 8-bit
    float; some input is a 4-bit integer; the generic text. When the set
    holds more than one candidate it raises the internal "ill-formed
    lattice" error, which is none of the four. This holds over any table
    of upper bounds, [_least_upper_bound] being the solver over the
    table of the policy. *)
Theorem least_upper_bound_errors (UB : gmap JAXType (gset JAXType)) (cfg : Config)
    (nodes : list JAXType) (LUB : gset JAXType) :
  least_upper_bound_set UB nodes = Ok LUB →
  (size LUB = 0 →
     ∃ msg, least_upper_bound_in UB cfg nodes = Raise (TypePromotionError msg)
       ∧ msg ≠ IllFormedMsg
       ∧ (numpy_dtype_promotion cfg = strict → msg = StrictMsg)
       ∧ (numpy_dtype_promotion cfg ≠ strict →
          (∃ n, n ∈ nodes ∧ n ∈ JDType <$> _float8_dtypes) → msg = Float8Msg)
       ∧ (numpy_dtype_promotion cfg ≠ strict →
          (¬ ∃ n, n ∈ nodes ∧ n ∈ JDType <$> _float8_dtypes) →
          (∃ n, n ∈ nodes ∧ n ∈ JDType <$> _int4_dtypes) → msg = Int4Msg)
       ∧ (numpy_dtype_promotion cfg ≠ strict →
          (¬ ∃ n, n ∈ nodes ∧ n ∈ JDType <$> _float8_dtypes) →
          (¬ ∃ n, n ∈ nodes ∧ n ∈ JDType <$> _int4_dtypes) → msg = NoPathMsg))
  ∧ (1 < size LUB →
     least_upper_bound_in UB cfg nodes = Raise (TypePromotionError IllFormedMsg))
  ∧ (∀ p, _least_upper_bound cfg p nodes
          = least_upper_bound_in (_lattice_upper_bounds p) cfg nodes).
Proof.
  intros HLUB. unfold least_upper_bound_in. rewrite HLUB. simpl.
  unfold size, set_size. simpl.
  assert (existsb (λ n, node_in n _float8_dtypes) nodes = true
          ↔ ∃ n, n ∈ nodes ∧ n ∈ JDType <$> _float8_dtypes) as Hf8.
  { rewrite existsb_elem_of. by setoid_rewrite node_in_float8. }
  assert (existsb (λ n, node_in n _int4_dtypes) nodes = true
          ↔ ∃ n, n ∈ nodes ∧ n ∈ JDType <$> _int4_dtypes) as Hi4.
  { rewrite existsb_elem_of. by setoid_rewrite node_in_int4. }
  split; [|split; [|done]].
  - intros Hsize. destruct (elements LUB) as [|c l]; [|done].
    exists (no_path_message cfg nodes). split; [done|].
    unfold no_path_message.
    destruct (decide (numpy_dtype_promotion cfg = strict)) as [Hs|Hs].
    { repeat split; done. }
    destruct (existsb (λ n, node_in n _float8_dtypes) nodes) eqn:Ef8.
    { pose proof (proj1 Hf8 eq_refl). repeat split; done. }
    assert (¬ ∃ n, n ∈ nodes ∧ n ∈ JDType <$> _float8_dtypes) as Hnf8.
    { by intros H%Hf8. }
    destruct (existsb (λ n, node_in n _int4_dtypes) nodes) eqn:Ei4.
    { pose proof (proj1 Hi4 eq_refl). repeat split; done. }
    assert (¬ ∃ n, n ∈ nodes ∧ n ∈ JDType <$> _int4_dtypes) as Hni4.
    { by intros H%Hi4. }
    repeat split; done.
  - intros Hsize. destruct (elements LUB) as [|c [|c' l]]; simpl in *; [lia..|done].
Qed.

Lemma least_upper_bound_errors_witness :
  (least_upper_bound_set (_lattice_upper_bounds standard)
     [JDType Float8_e4m3fn; JDType Float32] = Ok ∅
   ∧ _least_upper_bound config_default standard [JDType Float8_e4m3fn; JDType Float32]
     = Raise (TypePromotionError Float8Msg))
  ∧ (least_upper_bound_set ill_formed_upper_bounds [JDType Int8]
     = Ok {[ JDType Int16; JDType UInt16 ]}
     ∧ least_upper_bound_in ill_formed_upper_bounds config_default [JDType Int8]
       = Raise (TypePromotionError IllFormedMsg)).
Proof.
  assert (least_upper_bound_set (_lattice_upper_bounds standard)
            [JDType Float8_e4m3fn; JDType Float32] = Ok ∅) as Hnone.
  { vm_compute. reflexivity. }
  assert (least_upper_bound_set ill_formed_upper_bounds [JDType Int8]
          = Ok {[ JDType Int16; JDType UInt16 ]}) as Hmany.
  { vm_compute. reflexivity. }
  split; (split; [done|]).
  - destruct (least_upper_bound_errors _ config_default _ _ Hnone) as (Hzero & _ & Hsolver).
    rewrite (Hsolver standard).
    destruct Hzero as (msg & -> & _ & _ & Hfloat8 & _); [vm_compute; reflexivity|].
    f_equal. f_equal. apply Hfloat8; [done|].
    exists (JDType Float8_e4m3fn). split; apply list_elem_of_In; simpl; auto.
  - destruct (least_upper_bound_errors _ config_default _ _ Hmany) as (_ & Hill & _).
    apply Hill. vm_compute. lia.
Defined.

(** ** Finite case analysis *)

Lemma DType_enum_complete (d : DType) : d ∈ DType_enum.
Proof. apply list_elem_of_lookup_2 with (DType_code d). by destruct d. Qed.

Lemma forallb_DType (f : DType → bool) :
  forallb f DType_enum = true → ∀ d, f d = true.
Proof.
  intros Hall d. eapply forallb_forall in Hall; [done|].
  apply list_elem_of_In, DType_enum_complete.
Qed.

Lemma PyClass_enum_complete (c : PyClass) : c ∈ PyClass_enum.
Proof. apply list_elem_of_lookup_2 with (PyClass_code c). by destruct c. Qed.

Lemma forallb_PyClass (f : PyClass → bool) :
  forallb f PyClass_enum = true → ∀ c, f c = true.
Proof.
  intros Hall c. eapply forallb_forall in Hall; [done|].
  apply list_elem_of_In, PyClass_enum_complete.
Qed.

(** [promote_types] reads one flag only. *)
Lemma promote_types_policy (cfg cfg' : Config) (a b : DTypeLike) :
  numpy_dtype_promotion cfg = numpy_dtype_promotion cfg' →
  promote_types cfg a b = promote_types cfg' a b.
Proof.
  intros Hp. unfold promote_types, _least_upper_bound, least_upper_bound_in, no_path_message.
  by rewrite Hp.
Qed.

Lemma promote_types_over_table (cfg : Config) (p : Policy) (a b : DTypeLike) :
  numpy_dtype_promotion cfg = p →
  promote_types cfg a b = promote_types_over (_lattice_upper_bounds p) cfg a b.
Proof. intros <-. reflexivity. Qed.

(** Every pair of concrete tags, against the strict table. *)
Lemma strict_concrete_pairs_check :
  (λ UB, forallb (λ a, forallb (λ b,
            bool_decide (a = b)
            || bool_decide (promote_types_over UB config_strict (LDType a) (LDType b)
                            = Raise (TypePromotionError StrictMsg)))
            DType_enum) DType_enum) (_lattice_upper_bounds strict) = true.
Proof. vm_compute. reflexivity. Qed.

(** Every weak tag with every concrete tag, against the strict table. *)
Lemma strict_weak_pairs_check :
  (λ UB, forallb (λ w, forallb (λ d,
            negb (compatible_category w d)
            || (bool_decide (promote_types_over UB config_strict (LClass w) (LDType d) = Ok d)
                && bool_decide (promote_types_over UB config_strict (LDType d) (LClass w)
                                = Ok d)))
            DType_enum) PyClass_enum) (_lattice_upper_bounds strict) = true.
Proof. vm_compute. reflexivity. Qed.

(** Every narrow tag with every concrete tag, against the standard table. *)
Lemma standard_narrow_pairs_check :
  (λ UB, forallb (λ t, forallb (λ d,
            negb (bool_decide (t ∈ narrow_dtypes)) || bool_decide (d = t)
            || (if below_narrow t d
                then bool_decide (promote_types_over UB config_default (LDType t) (LDType d)
                                  = Ok t)
                     && bool_decide (promote_types_over UB config_default (LDType d) (LDType t)
                                     = Ok t)
                else existsb (λ msg,
                       bool_decide (promote_types_over UB config_default (LDType t) (LDType d)
                                    = Raise (TypePromotionError msg))
                       && bool_decide (promote_types_over UB config_default (LDType d)
                                         (LDType t)
                                       = Raise (TypePromotionError msg)))
                       [Float8Msg; Int4Msg]))
            DType_enum) DType_enum) (_lattice_upper_bounds standard) = true.
Proof. vm_compute. reflexivity. Qed.

(** ** Promotion of two tags *)

(** C4. Under the strict policy every concrete tag is terminal in the
    lattice, so two distinct concrete tags raise [TypePromotionError]
    and a tag promotes to itself; a weak tag adapts to a concrete tag of
    a compatible category, on either side. *)
Theorem strict_promotion (cfg : Config) :
  numpy_dtype_promotion cfg = strict →
  (∀ d, _type_promotion_lattice strict !! JDType d = Some [])
  ∧ (∀ a b : DType, a ≠ b →
       promote_types cfg (LDType a) (LDType b) = Raise (TypePromotionError StrictMsg))
  ∧ (∀ a : DType, promote_types cfg (LDType a) (LDType a) = Ok a)
  ∧ (∀ (w : PyClass) (d : DType), compatible_category w d = true →
       promote_types cfg (LClass w) (LDType d) = Ok d
       ∧ promote_types cfg (LDType d) (LClass w) = Ok d)
  ∧ promote_types cfg (LDType Int32) (LDType Int64) = Raise (TypePromotionError StrictMsg)
  ∧ promote_types cfg (LClass py_int) (LDType Int64) = Ok Int64.
Proof.
  intros Hstrict.
  assert (∀ a b, promote_types cfg a b = promote_types config_strict a b) as Hcfg.
  { intros a b. by apply promote_types_policy. }
  split; [|split; [|split; [|split; [|split]]]].
  - intros d. destruct d; vm_compute; reflexivity.
  - intros a b Hab. rewrite Hcfg.
    pose proof strict_concrete_pairs_check as Hall.
    cbv beta in Hall.
    pose proof (forallb_DType _ (forallb_DType _ Hall a) b) as Hb.
    clear Hall. cbv beta in Hb.
    rewrite (promote_types_over_table config_strict strict) by reflexivity. apply orb_true_iff in Hb as [Heq|Hraise].
    + apply bool_decide_eq_true in Heq. contradiction.
    + apply bool_decide_eq_true in Hraise. exact Hraise.
  - intros a. rewrite Hcfg. destruct a; vm_compute; reflexivity.
  - intros w d Hcompat. rewrite !Hcfg.
    pose proof strict_weak_pairs_check as Hall.
    cbv beta in Hall.
    pose proof (forallb_DType _ (forallb_PyClass _ Hall w) d) as Hd.
    clear Hall. cbv beta in Hd.
    rewrite !(promote_types_over_table config_strict strict) by reflexivity. apply orb_true_iff in Hd as [Hno|Hd].
    + rewrite Hcompat in Hno. discriminate Hno.
    + apply andb_true_iff in Hd as [H1 H2].
      split; eapply bool_decide_eq_true; eassumption.
  - rewrite Hcfg. vm_compute. reflexivity.
  - rewrite Hcfg. vm_compute. reflexivity.
Qed.

Lemma strict_promotion_witness :
  numpy_dtype_promotion config_strict = strict
  ∧ promote_types config_strict (LDType Int32) (LDType Int64)
    = Raise (TypePromotionError StrictMsg)
  ∧ promote_types config_strict (LClass py_int) (LDType Int64) = Ok Int64.
Proof.
  assert (numpy_dtype_promotion config_strict = strict) as Hstrict by reflexivity.
  split; [exact Hstrict|].
  destruct (strict_promotion config_strict Hstrict) as (_ & _ & _ & _ & H1 & H2).
  split; assumption.
Defined.

(** C7, as the code has it. Under the standard policy the five 8-bit
    floats and the two 4-bit integers are terminal nodes, and the 4-bit
    integers have the weak integer as their only predecessor. Promoting
    such a tag with a different concrete tag gives no third type: it
    gives the narrow tag itself when the other tag lies below it
    ([float8_e4m3fn] with [int32] is [float8_e4m3fn]) and raises
    [TypePromotionError] otherwise ([float8_e4m3fn] with [float32]). *)
Theorem narrow_promotion_standard (cfg : Config) :
  numpy_dtype_promotion cfg = standard →
  (∀ t, t ∈ narrow_dtypes → _type_promotion_lattice standard !! JDType t = Some [])
  ∧ (∀ t, t ∈ _int4_dtypes →
       edge (_type_promotion_lattice standard) i_ (JDType t)
       ∧ ∀ n, edge (_type_promotion_lattice standard) n (JDType t) → n = i_)
  ∧ (∀ t d, t ∈ narrow_dtypes → d ≠ t →
       (below_narrow t d = true
        ∧ promote_types cfg (LDType t) (LDType d) = Ok t
        ∧ promote_types cfg (LDType d) (LDType t) = Ok t)
       ∨ (below_narrow t d = false
          ∧ ∃ msg, (msg = Float8Msg ∨ msg = Int4Msg)
              ∧ promote_types cfg (LDType t) (LDType d) = Raise (TypePromotionError msg)
              ∧ promote_types cfg (LDType d) (LDType t) = Raise (TypePromotionError msg)))
  ∧ promote_types cfg (LDType Float8_e4m3fn) (LDType Int32) = Ok Float8_e4m3fn
  ∧ promote_types cfg (LDType Float8_e4m3fn) (LDType Float32)
    = Raise (TypePromotionError Float8Msg).
Proof.
  intros Hstandard.
  assert (∀ a b, promote_types cfg a b = promote_types config_default a b) as Hcfg.
  { intros a b. apply promote_types_policy. exact Hstandard. }
  assert (∀ t, t ∈ narrow_dtypes → bool_decide (t ∈ narrow_dtypes) = true) as Hnarrow.
  { intros t Ht. apply bool_decide_eq_true. exact Ht. }
  split; [|split; [|split; [|split]]].
  - intros t Ht%Hnarrow. destruct t; first [discriminate Ht | vm_compute; reflexivity].
  - intros t Ht.
    assert (bool_decide (t ∈ _int4_dtypes) = true) as Hb
      by (apply bool_decide_eq_true; exact Ht).
    split.
    + exists [JDType UInt8; JDType Int8; JDType Int4; JDType UInt4]. split.
      * vm_compute. reflexivity.
      * destruct t; first [discriminate Hb | (apply list_elem_of_In; simpl; tauto)].
    + intros n (l & Hl & Hin).
      assert (bool_decide (map_Forall (λ n l, JDType t ∈ l → n = i_)
                             (_type_promotion_lattice standard)) = true) as Hall.
      { destruct t; first [discriminate Hb | vm_compute; reflexivity]. }
      apply bool_decide_eq_true in Hall. exact (Hall n l Hl Hin).
  - intros t d Ht%Hnarrow Hne. rewrite !Hcfg.
    pose proof standard_narrow_pairs_check as Hall.
    cbv beta in Hall.
    pose proof (forallb_DType _ (forallb_DType _ Hall t) d) as Hd. clear Hall.
    cbv beta in Hd.
    rewrite !(promote_types_over_table config_default standard) by reflexivity.
    rewrite Ht in Hd.
    apply orb_true_iff in Hd as [Hd|Hd].
    { apply orb_true_iff in Hd as [Hd|Hd]; [discriminate Hd|].
      apply bool_decide_eq_true in Hd. contradiction. }
    destruct (below_narrow t d).
    + left. apply andb_true_iff in Hd as [H1 H2].
      apply bool_decide_eq_true in H1. apply bool_decide_eq_true in H2. auto.
    + right. split; [reflexivity|].
      apply existsb_elem_of in Hd as (msg & Hmsg & Hd).
      apply andb_true_iff in Hd as [H1 H2].
      apply bool_decide_eq_true in H1. apply bool_decide_eq_true in H2.
      exists msg. split; [|auto].
      apply list_elem_of_In in Hmsg. destruct Hmsg as [<-|[<-|[]]]; auto.
  - rewrite Hcfg. vm_compute. reflexivity.
  - rewrite Hcfg. vm_compute. reflexivity.
Qed.

Lemma narrow_promotion_standard_witness :
  numpy_dtype_promotion config_default = standard
  ∧ promote_types config_default (LDType Float8_e4m3fn) (LDType Int32) = Ok Float8_e4m3fn
  ∧ promote_types config_default (LDType Float8_e4m3fn) (LDType Float32)
    = Raise (TypePromotionError Float8Msg).
Proof.
  assert (numpy_dtype_promotion config_default = standard) as Hstandard by reflexivity.
  split; [exact Hstandard|].
  destruct (narrow_promotion_standard config_default Hstandard) as (_ & _ & _ & H1 & H2).
  split; assumption.
Defined.

(** C7 as stated fails: [float8_e4m3fn] and [int32] promote, to
    [float8_e4m3fn], since [int32] reaches the weak float through
    [int64] and every 8-bit float lies right above the weak float. *)
Lemma narrow_promotion_counterexample :
  ¬ ∃ msg, promote_types config_default (LDType Float8_e4m3fn) (LDType Int32)
           = Raise (TypePromotionError msg).
Proof.
  intros [msg Hraise].
  assert (promote_types config_default (LDType Float8_e4m3fn) (LDType Int32)
          = Ok Float8_e4m3fn) as Hok by (vm_compute; reflexivity).
  rewrite Hok in Hraise. discriminate Hraise.
Qed.

(** ** Canonicalisation and the subtype predicate *)

(** Six steps reach the root of the hierarchy from every class. *)
Lemma superclasses_root (s : ScalarType) : np_generic ∈ superclasses 6 s.
Proof. apply list_elem_of_In. destruct s; simpl; tauto. Qed.

Lemma issubclass_refl (s : ScalarType) : issubclass s s = true.
Proof. apply bool_decide_eq_true. simpl. by left. Qed.

Lemma issubdtype_extended (e : ExtendedDType) :
  issubdtype (ALike (LExt e)) (AScalar extended) = true.
Proof. destruct e as [i []]; reflexivity. Qed.

Lemma issubdtype_not_extended (x : DTypeLike) (d : DType) :
  np_dtype x = Ok d → issubdtype (ALike x) (AScalar extended) = false.
Proof.
  destruct x as [|c|d'|e]; intros [= <-].
  - reflexivity.
  - destruct c; reflexivity.
  - destruct d'; reflexivity.
Qed.

(** C6. [canonicalize] raises on an extended type unless extended types
    are allowed, and then returns it as it is. Any other tag is first
    resolved to its dtype: a concrete tag to itself, a weak tag to the
    64-bit dtype of its Python class, [None] to [float64]. In wide mode
    that dtype is returned unchanged; otherwise exactly the four 64-bit
    dtypes are mapped to their 32-bit counterparts and every other dtype
    is returned unchanged, so that the weak tags come back as [int32],
    [float32] and [complex64]. Nothing but an extended type raises. *)
Theorem canonicalize_dtype_spec :
  (∀ x64 e, _canonicalize_dtype x64 false (LExt e) = Raise ValueError)
  ∧ (∀ x64 e, _canonicalize_dtype x64 true (LExt e) = Ok (AExt e))
  ∧ (∀ allow x d, np_dtype x = Ok d →
       _canonicalize_dtype true allow x = Ok (ADType d))
  ∧ (∀ allow d, _canonicalize_dtype true allow (LDType d) = Ok (ADType d))
  ∧ (∀ allow x,
       (np_dtype x = Ok Int64 → _canonicalize_dtype false allow x = Ok (ADType Int32))
       ∧ (np_dtype x = Ok UInt64 → _canonicalize_dtype false allow x = Ok (ADType UInt32))
       ∧ (np_dtype x = Ok Float64 → _canonicalize_dtype false allow x = Ok (ADType Float32))
       ∧ (np_dtype x = Ok Complex128
          → _canonicalize_dtype false allow x = Ok (ADType Complex64)))
  ∧ (∀ allow x d, np_dtype x = Ok d → d ∉ wide_dtypes →
       _canonicalize_dtype false allow x = Ok (ADType d))
  ∧ (∀ allow x d, np_dtype x = Ok d →
       _canonicalize_dtype false allow x = Ok (ADType d) → d ∉ wide_dtypes)
  ∧ (∀ allow,
       _canonicalize_dtype false allow (LClass py_bool) = Ok (ADType Bool)
       ∧ _canonicalize_dtype false allow (LClass py_int) = Ok (ADType Int32)
       ∧ _canonicalize_dtype false allow (LClass py_float) = Ok (ADType Float32)
       ∧ _canonicalize_dtype false allow (LClass py_complex) = Ok (ADType Complex64)
       ∧ _canonicalize_dtype false allow LNone = Ok (ADType Float32))
  ∧ (∀ x64 allow x, (∀ e, x ≠ LExt e) →
       ∃ d, _canonicalize_dtype x64 allow x = Ok (ADType d))
  ∧ (∀ cfg, enable_x64 cfg = false →
       canonicalize_dtype cfg (LDType Int64) false = Ok (ADType Int32))
  ∧ (∀ cfg, enable_x64 cfg = true →
       canonicalize_dtype cfg (LDType Int64) false = Ok (ADType Int64)).
Proof.
  assert (∀ x64 allow x d, np_dtype x = Ok d →
            _canonicalize_dtype x64 allow x
            = Ok (ADType (if x64 then d else default d (_dtype_to_32bit_dtype d)))) as Hform.
  { intros x64 allow x d Hx. unfold _canonicalize_dtype.
    rewrite (issubdtype_not_extended x d Hx), Hx. by destruct x64. }
  split; [|split; [|split; [|split; [|split; [|split; [|split; [|split;
    [|split; [|split]]]]]]]]].
  - intros x64 e. unfold _canonicalize_dtype. by rewrite issubdtype_extended.
  - intros x64 e. unfold _canonicalize_dtype. by rewrite issubdtype_extended.
  - intros allow x d Hx. by rewrite (Hform true allow x d Hx).
  - intros allow d. by rewrite (Hform true allow (LDType d) d eq_refl).
  - intros allow x. repeat split; intros Hx; by rewrite (Hform false allow x _ Hx).
  - intros allow x d Hx Hd. rewrite (Hform false allow x d Hx).
    destruct d; try reflexivity; destruct Hd; apply list_elem_of_In; simpl; tauto.
  - intros allow x d Hx. rewrite (Hform false allow x d Hx). intros Hd Hwide.
    apply list_elem_of_In in Hwide. simpl in Hwide.
    destruct Hwide as [<-|[<-|[<-|[<-|[]]]]]; discriminate Hd.
  - intros allow. repeat split; reflexivity.
  - intros x64 allow x Hx. destruct x as [|c|d|e].
    + eexists. by rewrite (Hform x64 allow LNone Float64 eq_refl).
    + eexists. by rewrite (Hform x64 allow (LClass c) (python_scalar_dtypes c) eq_refl).
    + eexists. by rewrite (Hform x64 allow (LDType d) d eq_refl).
    + by destruct (Hx e).
  - intros cfg Hx64. unfold canonicalize_dtype. by rewrite Hx64.
  - intros cfg Hx64. unfold canonicalize_dtype. by rewrite Hx64.
Qed.

Lemma canonicalize_dtype_spec_witness :
  np_dtype (LDType Float16) = Ok Float16
  ∧ (Float16 ∉ wide_dtypes)
  ∧ _canonicalize_dtype false false (LDType Float16) = Ok (ADType Float16)
  ∧ np_dtype (LClass py_float) = Ok Float64
  ∧ _canonicalize_dtype false false (LClass py_float) = Ok (ADType Float32)
  ∧ _canonicalize_dtype true false (LClass py_float) = Ok (ADType Float64)
  ∧ enable_x64 config_default = false
  ∧ canonicalize_dtype config_default (LDType Int64) false = Ok (ADType Int32)
  ∧ enable_x64 config_x64 = true
  ∧ canonicalize_dtype config_x64 (LDType Int64) false = Ok (ADType Int64).
Proof.
  assert (Float16 ∉ wide_dtypes) as Hnarrow.
  { intros Hin. apply list_elem_of_In in Hin. simpl in Hin.
    destruct Hin as [H|[H|[H|[H|[]]]]]; discriminate H. }
  destruct canonicalize_dtype_spec
    as (_ & _ & Hwide & _ & Hmap & Hkeep & _ & _ & _ & H32 & H64).
  split; [reflexivity|]. split; [exact Hnarrow|].
  split; [exact (Hkeep false (LDType Float16) Float16 eq_refl Hnarrow)|].
  split; [reflexivity|].
  split; [exact (proj1 (proj2 (proj2 (Hmap false (LClass py_float)))) eq_refl)|].
  split; [exact (Hwide false (LClass py_float) Float64 eq_refl)|].
  split; [reflexivity|]. split; [exact (H32 config_default eq_refl)|].
  split; [reflexivity|]. exact (H64 config_x64 eq_refl).
Defined.

(** C6 as stated fails on the weak tags. The weak float tag, the Python
    class [float], is none of the four 64-bit tags, and in 32-bit mode
    it is not left unchanged: the result is [float32], which is neither
    the tag nor the dtype [float64] that stands for it. *)
Lemma canonicalize_dtype_counterexample :
  ¬ ((LClass py_float ∉ LDType <$> wide_dtypes) →
     (ADType <$> np_dtype (LClass py_float))
     = _canonicalize_dtype false false (LClass py_float)).
Proof.
  intros Hclaim.
  assert (LClass py_float ∉ LDType <$> wide_dtypes) as Htag.
  { intros Hin. apply list_elem_of_In in Hin. simpl in Hin.
    destruct Hin as [H|[H|[H|[H|[]]]]]; discriminate H. }
  specialize (Hclaim Htag). discriminate Hclaim.
Qed.

(** C9. The subtype predicate is reflexive on every argument it takes:
    a concrete dtype (the narrow floats and the 4-bit integers among
    them), a Python scalar class (the weak tags), an extended dtype,
    [None], and every scalar class. *)
Theorem issubdtype_refl (a : SubdtypeArg) : issubdtype a a = true.
Proof.
  destruct a as [[|c|d|e]|s].
  - reflexivity.
  - by destruct c.
  - by destruct d.
  - simpl. by apply bool_decide_eq_true.
  - by destruct s.
Qed.

(** C3, as the code has it. Promoting a tag with itself gives the dtype
    of the tag, under either policy. That is [canonicalize] of the tag
    in wide mode; in 32-bit mode the two agree exactly when the dtype is
    none of the four 64-bit tags. *)
Theorem self_promotion (cfg : Config) (a : DTypeLike) (d : DType) :
  np_dtype a = Ok d →
  promote_types cfg a a = Ok d
  ∧ (∀ allow, _canonicalize_dtype true allow a = Ok (ADType d))
  ∧ (∀ allow, (ADType <$> promote_types cfg a a) = canonicalize_dtype cfg a allow
              ↔ enable_x64 cfg = true ∨ d ∉ wide_dtypes).
Proof.
  intros Ha.
  assert (promote_types cfg a a = Ok d) as Hself.
  { assert (∀ p, promote_types_over (_lattice_upper_bounds p) cfg a a = Ok d) as Hover.
    { intros p. destruct a as [|c|d'|e]; [| | |discriminate Ha]; injection Ha as <-.
      - destruct p; vm_compute; reflexivity.
      - destruct p, c; vm_compute; reflexivity.
      - destruct p, d'; vm_compute; reflexivity. }
    rewrite (promote_types_over_table cfg _ a a eq_refl). apply Hover. }
  assert (∀ x64 allow, _canonicalize_dtype x64 allow a
            = Ok (ADType (if x64 then d else default d (_dtype_to_32bit_dtype d)))) as Hcanon.
  { intros x64 allow. unfold _canonicalize_dtype.
    rewrite (issubdtype_not_extended a d Ha), Ha. by destruct x64. }
  split; [exact Hself|]. split; [intros allow; apply Hcanon|].
  intros allow. rewrite Hself. unfold canonicalize_dtype. rewrite Hcanon.
  destruct (enable_x64 cfg).
  - split; [by left | reflexivity].
  - clear Hself Hcanon Ha. split.
    + intros [= Heq]. right. intros Hwide. apply list_elem_of_In in Hwide. simpl in Hwide.
      destruct Hwide as [<-|[<-|[<-|[<-|[]]]]]; discriminate Heq.
    + intros [[=]|Hnarrow]. destruct d; try reflexivity; destruct Hnarrow;
        apply list_elem_of_In; simpl; tauto.
Qed.

Lemma self_promotion_witness :
  np_dtype (LDType Int32) = Ok Int32
  ∧ promote_types config_default (LDType Int32) (LDType Int32) = Ok Int32.
Proof.
  assert (np_dtype (LDType Int32) = Ok Int32) as Ha by reflexivity.
  split; [exact Ha|].
  destruct (self_promotion config_default (LDType Int32) Int32 Ha) as [Hself _].
  exact Hself.
Defined.

(** C3 as stated fails in 32-bit mode: [int64] promoted with itself is
    [int64], which [canonicalize] narrows to [int32]. *)
Lemma self_promotion_counterexample :
  (ADType <$> promote_types config_default (LDType Int64) (LDType Int64))
  ≠ canonicalize_dtype config_default (LDType Int64) false.
Proof.
  assert (promote_types config_default (LDType Int64) (LDType Int64) = Ok Int64) as ->
    by (vm_compute; reflexivity).
  intros Heq. discriminate Heq.
Qed.

(** ** The result type and its weak flag *)

Lemma standard_configs_complete (cfg : Config) :
  numpy_dtype_promotion cfg = standard → In cfg standard_configs.
Proof.
  destruct cfg as [[] p []]; simpl; intros ->; tauto.
Qed.

Lemma result_type_scenario_check :
  forallb (λ cfg, forallb (λ b, forallb (λ w,
    bool_decide (result_type cfg [b; w] true
                 = Ok (RPair (ADType (default_int_dtype cfg)) true))
    && forallb (λ f,
         bool_decide (result_type cfg [b; w; f] true = Ok (RPair (ADType Float32) false)))
       float32_values)
    weak_int_literals) bool_tags) standard_configs = true.
Proof. vm_compute. reflexivity. Qed.

(** C5. Under the standard policy the result type of the bool tag and a
    weak integer literal is the configured default signed integer type,
    weakly typed; with a concrete [float32] value added it is [float32],
    not weakly typed. *)
Theorem result_type_bool_weak_int (cfg : Config) (bool_tag weak_int float32_value : Operand) :
  numpy_dtype_promotion cfg = standard →
  bool_tag ∈ bool_tags →
  weak_int ∈ weak_int_literals →
  float32_value ∈ float32_values →
  (∃ int_, _default_types cfg kind_i = Ok int_
           ∧ canonicalize_dtype cfg (LDType int_) false = Ok (ADType (default_int_dtype cfg)))
  ∧ result_type cfg [bool_tag; weak_int] true
    = Ok (RPair (ADType (default_int_dtype cfg)) true)
  ∧ result_type cfg [bool_tag; weak_int; float32_value] true
    = Ok (RPair (ADType Float32) false).
Proof.
  intros Hcfg%standard_configs_complete Hb%list_elem_of_In Hw%list_elem_of_In
    Hf%list_elem_of_In.
  split.
  { clear Hb Hw Hf. simpl in Hcfg.
    destruct Hcfg as [<-|[<-|[<-|[<-|[]]]]]; eexists; split; reflexivity. }
  pose proof result_type_scenario_check as Hall.
  rewrite forallb_forall in Hall. specialize (Hall cfg Hcfg).
  rewrite forallb_forall in Hall. specialize (Hall bool_tag Hb).
  rewrite forallb_forall in Hall. specialize (Hall weak_int Hw).
  apply andb_true_iff in Hall as [H2 H3].
  rewrite forallb_forall in H3. specialize (H3 float32_value Hf).
  apply bool_decide_eq_true in H2. apply bool_decide_eq_true in H3.
  split; assumption.
Qed.

Lemma result_type_bool_weak_int_witness :
  numpy_dtype_promotion config_default = standard
  ∧ result_type config_default [OpDType Bool; OpScalar py_int] true
    = Ok (RPair (ADType Int32) true)
  ∧ result_type config_x64 [OpDType Bool; OpScalar py_int] true
    = Ok (RPair (ADType Int64) true)
  ∧ result_type config_default [OpDType Bool; OpScalar py_int; OpArray Float32 false] true
    = Ok (RPair (ADType Float32) false).
Proof.
  assert (OpDType Bool ∈ bool_tags) as Hb by (apply list_elem_of_In; simpl; tauto).
  assert (OpScalar py_int ∈ weak_int_literals) as Hw by (apply list_elem_of_In; simpl; tauto).
  assert (OpArray Float32 false ∈ float32_values) as Hf
    by (apply list_elem_of_In; simpl; tauto).
  split; [reflexivity|].
  destruct (result_type_bool_weak_int config_default _ _ _ eq_refl Hb Hw Hf) as (_ & H2 & H3).
  destruct (result_type_bool_weak_int config_x64 _ _ _ eq_refl Hb Hw Hf) as (_ & H2' & _).
  split; [exact H2|]. split; [exact H2'|exact H3].
Defined.

(** The flag that [_lattice_result_type] returns is cleared for bool. *)
Lemma _lattice_result_type_weak (cfg : Config) (args : list Operand) (dt : AnyDType) :
  _lattice_result_type cfg args = Ok (dt, true) → dt ≠ ADType Bool.
Proof.
  unfold _lattice_result_type.
  destruct (mapM (_dtype_and_weaktype cfg) args) as [[|first pairs]|e]; [done| |done].
  cbn [mbind res_bind].
  match goal with
  | |- mbind _ ?X = _ → _ => destruct X as [out|e']
  end; [|done].
  destruct out as [out_dtype out_weak_type].
  cbn [mbind res_bind]. intros [= <- Hweak] ->. discriminate Hweak.
Qed.

(** C10. When [result_type] is asked for the weak flag and the dtype it
    returns is bool, the flag is false, whatever the operands, a weakly
    typed bool value alone among them. *)
Theorem result_type_bool_not_weak (cfg : Config) (args : list Operand)
    (dt : AnyDType) (weak_type : bool) :
  result_type cfg args true = Ok (RPair dt weak_type) →
  dt = ADType Bool →
  weak_type = false.
Proof.
  unfold result_type. destruct (bool_decide (length args = 0)); [done|].
  destruct (_lattice_result_type cfg _) as [[d0 w0]|e] eqn:Hlattice; [|done].
  cbn [mbind res_bind]. destruct w0.
  - apply _lattice_result_type_weak in Hlattice.
    unfold canonicalize_dtype, _default_types.
    destruct d0 as [d|ext]; [|done].
    destruct d, (default_dtype_bits cfg), (enable_x64 cfg); try done;
      cbn; intros [= <- <-]; done.
  - destruct (canonicalize_dtype cfg (like_of_dtype d0) true); [|done].
    cbn. by intros [= <- <-].
Qed.

Lemma result_type_bool_not_weak_witness :
  result_type config_default [OpArray Bool true] true = Ok (RPair (ADType Bool) false)
  ∧ ADType Bool = ADType Bool
  ∧ false = false.
Proof.
  assert (result_type config_default [OpArray Bool true] true
          = Ok (RPair (ADType Bool) false)) as Hresult by (vm_compute; reflexivity).
  split; [exact Hresult|]. split; [reflexivity|].
  exact (result_type_bool_not_weak config_default [OpArray Bool true] (ADType Bool)
           false Hresult eq_refl).
Defined.

(** ** Casting *)





(** The weak flag of the target is not read either: in wide mode
    [float16] casts safely to a Python float, a weakly typed [float64],
    though the result type of the two is [float16]. *)
Lemma safe_to_cast_weak_target :
  safe_to_cast config_x64 (OpDType Float16) (OpScalar py_float) = Ok true
  ∧ result_type config_x64 [OpDType Float16; OpScalar py_float] false
    = Ok (RDType (ADType Float16)).
Proof. split; vm_compute; reflexivity. Qed.

(** * Further properties of the module *)

(** ** Conversions between categories *)

Lemma ScalarType_enum_complete (s : ScalarType) : s ∈ ScalarType_enum.
Proof. apply list_elem_of_lookup_2 with (ScalarType_code s). by destruct s. Qed.

Lemma forallb_ScalarType (f : ScalarType → bool) :
  forallb f ScalarType_enum = true → ∀ s, f s = true.
Proof.
  intros Hall s. eapply forallb_forall in Hall; [done|].
  apply list_elem_of_In, ScalarType_enum_complete.
Qed.

(** X1. [to_numeric_dtype] changes bool to [int32] and nothing else; its
    result is never bool, is a subtype of [np.number], and is a fixed
    point of the function. *)
Theorem to_numeric_dtype_number (x : DTypeLike) (d : DType) :
  np_dtype x = Ok d →
  ∃ r, to_numeric_dtype x = Ok r
       ∧ (d = Bool → r = Int32)
       ∧ r ≠ Bool
       ∧ (d ≠ Bool → r = d)
       ∧ issubdtype (ALike (LDType r)) (AScalar np_number) = true
       ∧ to_numeric_dtype (LDType r) = Ok r.
Proof.
  intros Hx. unfold to_numeric_dtype. rewrite Hx. cbn [mbind res_bind].
  eexists. split; [reflexivity|]. clear Hx. destruct d; vm_compute; intuition congruence.
Qed.

Lemma to_numeric_dtype_number_witness :
  np_dtype (LClass py_bool) = Ok Bool
  ∧ to_numeric_dtype (LClass py_bool) = Ok Int32.
Proof.
  assert (np_dtype (LClass py_bool) = Ok Bool) as Hx by reflexivity.
  split; [exact Hx|].
  destruct (to_numeric_dtype_number (LClass py_bool) Bool Hx) as (r & Hr & Hbool & _).
  rewrite Hr. f_equal. exact (Hbool eq_refl).
Defined.

(** X2. [to_inexact_dtype] returns a subtype of [np.inexact] for every
    dtype but the two 4-bit integers, which are missing from its table
    and come back unchanged; an inexact dtype is returned as it is, so
    the function is idempotent. *)
Theorem to_inexact_dtype_inexact (x : DTypeLike) (d : DType) :
  np_dtype x = Ok d →
  ∃ r, to_inexact_dtype x = Ok r
       ∧ (issubdtype (ALike (LDType r)) (AScalar np_inexact) = true ↔ d ∉ _int4_dtypes)
       ∧ (d ∈ _int4_dtypes → r = d)
       ∧ (issubdtype (ALike (LDType d)) (AScalar np_inexact) = true → r = d)
       ∧ to_inexact_dtype (LDType r) = Ok r.
Proof.
  intros Hx. unfold to_inexact_dtype. rewrite Hx. cbn [mbind res_bind].
  eexists. split; [reflexivity|]. clear Hx.
  assert (d ∈ _int4_dtypes ↔ d = Int4 ∨ d = UInt4) as Hint4.
  { rewrite list_elem_of_In. simpl. intuition congruence. }
  rewrite !Hint4. clear Hint4. destruct d; vm_compute; intuition congruence.
Qed.

Lemma to_inexact_dtype_inexact_witness :
  np_dtype (LDType Int4) = Ok Int4
  ∧ to_inexact_dtype (LDType Int4) = Ok Int4
  ∧ to_inexact_dtype (LDType Int64) = Ok Float64.
Proof.
  assert (np_dtype (LDType Int4) = Ok Int4) as Hx by reflexivity.
  split; [exact Hx|].
  destruct (to_inexact_dtype_inexact (LDType Int4) Int4 Hx) as (r & Hr & _ & Hsame & _).
  split; [|reflexivity].
  rewrite Hr. f_equal. apply Hsame. apply list_elem_of_In. simpl. tauto.
Defined.

(** X3. [to_complex_dtype] always returns one of the two complex dtypes:
    [complex128] exactly for the four 64-bit tags, [complex64] otherwise,
    the 4-bit integers and the narrow floats included. It leaves complex
    dtypes unchanged. *)
Theorem to_complex_dtype_complex (x : DTypeLike) (d : DType) :
  np_dtype x = Ok d →
  ∃ r, to_complex_dtype x = Ok r
       ∧ (r = Complex128 ↔ d ∈ wide_dtypes)
       ∧ (r = Complex64 ↔ d ∉ wide_dtypes)
       ∧ issubdtype (ALike (LDType r)) (AScalar np_complexfloating) = true
       ∧ to_complex_dtype (LDType r) = Ok r.
Proof.
  intros Hx. unfold to_complex_dtype, to_inexact_dtype. rewrite Hx. cbn [mbind res_bind].
  assert (d ∈ wide_dtypes ↔ d = Int64 ∨ d = UInt64 ∨ d = Float64 ∨ d = Complex128) as Hwide.
  { rewrite list_elem_of_In. simpl. intuition congruence. }
  clear Hx.
  destruct d; cbn; eexists; (split; [reflexivity|]); rewrite !Hwide; clear Hwide;
    vm_compute; intuition congruence.
Qed.

Lemma to_complex_dtype_complex_witness :
  np_dtype (LDType Int4) = Ok Int4
  ∧ to_complex_dtype (LDType Int4) = Ok Complex64.
Proof.
  assert (np_dtype (LDType Int4) = Ok Int4) as Hx by reflexivity.
  split; [exact Hx|].
  destruct (to_complex_dtype_complex (LDType Int4) Int4 Hx) as (r & Hr & _ & H64 & _).
  rewrite Hr. f_equal. apply H64.
  intros Hin. apply list_elem_of_In in Hin. simpl in Hin.
  destruct Hin as [H|[H|[H|[H|[]]]]]; discriminate H.
Defined.

(** X4. [supports_inf] holds exactly for the float and complex dtypes
    other than four of the 8-bit floats; of the 8-bit floats only
    [float8_e5m2] supports infinity, and no integer or bool dtype does. *)
Theorem supports_inf_spec (d : DType) :
  supports_inf (LDType d)
  = Ok (bool_decide (scalar_type_of d = Ok py_float ∨ scalar_type_of d = Ok py_complex)
        && negb (bool_decide (d ∈ [Float8_e4m3b11fnuz; Float8_e4m3fn; Float8_e4m3fnuz;
                                   Float8_e5m2fnuz]))).
Proof. destruct d; vm_compute; reflexivity. Qed.

(** ** The subtype predicate *)

Lemma issubdtype_sctype_trans_check :
  forallb (λ a, forallb (λ b, forallb (λ c,
    implb (issubdtype_sctype a b && issubdtype_sctype b c) (issubdtype_sctype a c))
    ScalarType_enum) ScalarType_enum) ScalarType_enum = true.
Proof. vm_compute. reflexivity. Qed.

Lemma issubdtype_sctype_trans (a b c : ScalarType) :
  issubdtype_sctype a b = true → issubdtype_sctype b c = true →
  issubdtype_sctype a c = true.
Proof.
  intros Hab Hbc.
  pose proof (forallb_ScalarType _
    (forallb_ScalarType _ (forallb_ScalarType _ issubdtype_sctype_trans_check a) b) c) as H.
  cbv beta in H. rewrite Hab, Hbc in H. exact H.
Qed.

Lemma issubclass_trans_check :
  forallb (λ a, forallb (λ b, forallb (λ c,
    implb (issubclass a b && issubclass b c) (issubclass a c))
    ScalarType_enum) ScalarType_enum) ScalarType_enum = true.
Proof. vm_compute. reflexivity. Qed.

Lemma issubclass_trans (a b c : ScalarType) :
  issubclass a b = true → issubclass b c = true → issubclass a c = true.
Proof.
  intros Hab Hbc.
  pose proof (forallb_ScalarType _
    (forallb_ScalarType _ (forallb_ScalarType _ issubclass_trans_check a) b) c) as H.
  cbv beta in H. rewrite Hab, Hbc in H. exact H.
Qed.

(** The predicate on every argument but an extended dtype instance on
    the right: a comparison of the scalar classes. *)
Lemma issubdtype_sctype_form (a b : SubdtypeArg) :
  (∀ e, b ≠ ALike (LExt e)) →
  issubdtype a b
  = if issubclass (sctype b) extended then issubclass (sctype a) (sctype b)
    else issubdtype_sctype (sctype a) (sctype b).
Proof.
  intros Hb. unfold issubdtype.
  destruct b as [[|cb|db|eb]|sb]; try (by destruct (Hb eb)).
  - reflexivity.
  - by destruct cb.
  - by destruct db.
  - cbn [_issubclass sctype]. destruct (issubclass sb extended); [|reflexivity].
    by destruct a as [[|ca|da|ea]|sa].
Qed.

Lemma issubdtype_extended_form (a : SubdtypeArg) (e : ExtendedDType) :
  issubdtype a (ALike (LExt e)) = bool_decide (a = ALike (LExt e)).
Proof.
  unfold issubdtype. cbn [_issubclass].
  destruct a as [[|ca|da|ea]|sa]; try reflexivity.
  destruct (decide (ea = e)) as [->|Hne].
  - by rewrite !bool_decide_eq_true_2.
  - rewrite !bool_decide_eq_false_2; [done| |done]. by intros [= ->].
Qed.

Lemma issubclass_extended_sctype_check :
  forallb (λ a, forallb (λ b,
    implb (issubclass b extended)
          (bool_decide (issubdtype_sctype a b = issubclass a b)))
    ScalarType_enum) ScalarType_enum = true.
Proof. vm_compute. reflexivity. Qed.

Lemma issubdtype_on_sctype (x y : SubdtypeArg) :
  (∀ e, y ≠ ALike (LExt e)) →
  issubdtype x y = issubdtype_sctype (sctype x) (sctype y).
Proof.
  intros Hy. rewrite issubdtype_sctype_form by done.
  destruct (issubclass (sctype y) extended) eqn:Hyext; [|done].
  pose proof (forallb_ScalarType _
    (forallb_ScalarType _ issubclass_extended_sctype_check (sctype x)) (sctype y)) as H.
  cbv beta in H. rewrite Hyext in H. by apply bool_decide_eq_true in H.
Qed.

Lemma extended_instance_cases (y : SubdtypeArg) :
  (∃ e, y = ALike (LExt e)) ∨ (∀ e, y ≠ ALike (LExt e)).
Proof. destruct y as [[|cy|dy|ey]|sy]; first [by right | left; by eexists]. Qed.

(** X5. The subtype predicate is transitive, on all its arguments: with
    reflexivity it is a preorder that extends the class hierarchy of
    NumPy by the custom floats, the 4-bit integers and the extended
    dtypes. *)
Theorem issubdtype_trans (a b c : SubdtypeArg) :
  issubdtype a b = true → issubdtype b c = true → issubdtype a c = true.
Proof.
  destruct (extended_instance_cases c) as [[e ->]|Hc].
  { rewrite !issubdtype_extended_form.
    intros Hab ->%bool_decide_eq_true. by rewrite issubdtype_extended_form in Hab. }
  destruct (extended_instance_cases b) as [[e ->]|Hb].
  { rewrite issubdtype_extended_form. by intros ->%bool_decide_eq_true. }
  rewrite !issubdtype_on_sctype by done. apply issubdtype_sctype_trans.
Qed.

Lemma issubdtype_trans_witness :
  issubdtype (ALike (LDType BFloat16)) (AScalar np_floating) = true
  ∧ issubdtype (AScalar np_floating) (AScalar np_number) = true
  ∧ issubdtype (ALike (LDType BFloat16)) (AScalar np_number) = true.
Proof.
  assert (issubdtype (ALike (LDType BFloat16)) (AScalar np_floating) = true) as H1
    by reflexivity.
  assert (issubdtype (AScalar np_floating) (AScalar np_number) = true) as H2 by reflexivity.
  split; [exact H1|]. split; [exact H2|].
  exact (issubdtype_trans _ _ _ H1 H2).
Defined.

Lemma issubdtype_sctype_antisym_check :
  forallb (λ a, forallb (λ b,
    implb (issubdtype_sctype a b && issubdtype_sctype b a) (bool_decide (a = b)))
    ScalarType_enum) ScalarType_enum = true.
Proof. vm_compute. reflexivity. Qed.

(** X6. Two arguments that are subtypes of each other stand for the same
    scalar class: on the classes the predicate is a partial order, and
    it tells no two of them apart but through their class, [None] and
    the Python [float] from [float64] for one. *)
Theorem issubdtype_antisym (a b : SubdtypeArg) :
  issubdtype a b = true → issubdtype b a = true → sctype a = sctype b.
Proof.
  destruct (extended_instance_cases b) as [[e ->]|Hb].
  { rewrite issubdtype_extended_form. by intros ->%bool_decide_eq_true. }
  destruct (extended_instance_cases a) as [[e ->]|Ha].
  { intros _. rewrite issubdtype_extended_form. by intros ->%bool_decide_eq_true. }
  rewrite !issubdtype_on_sctype by done. intros Hab Hba.
  pose proof (forallb_ScalarType _
    (forallb_ScalarType _ issubdtype_sctype_antisym_check (sctype a)) (sctype b)) as H.
  cbv beta in H. rewrite Hab, Hba in H. by apply bool_decide_eq_true in H.
Qed.

Lemma issubdtype_antisym_witness :
  issubdtype (ALike LNone) (ALike (LClass py_float)) = true
  ∧ issubdtype (ALike (LClass py_float)) (ALike LNone) = true
  ∧ sctype (ALike LNone) = sctype (ALike (LClass py_float)).
Proof.
  assert (issubdtype (ALike LNone) (ALike (LClass py_float)) = true) as H1 by reflexivity.
  assert (issubdtype (ALike (LClass py_float)) (ALike LNone) = true) as H2 by reflexivity.
  split; [exact H1|]. split; [exact H2|].
  exact (issubdtype_antisym _ _ H1 H2).
Defined.

(** X7. [scalar_type_of] never raises on a JAX dtype and sorts the dtypes
    as the subtype predicate does: bool, the integers (4-bit ones
    included), the floats (custom ones included), the complex dtypes.
    The weak node [_jax_type] gives a weakly typed dtype other than bool
    is this class. *)
Theorem scalar_type_of_category (d : DType) :
  ∃ c, scalar_type_of d = Ok c
       ∧ (c = py_bool ↔ d = Bool)
       ∧ (c = py_int ↔ issubdtype (ALike (LDType d)) (AScalar np_integer) = true)
       ∧ (c = py_float ↔ issubdtype (ALike (LDType d)) (AScalar np_floating) = true)
       ∧ (c = py_complex
          ↔ issubdtype (ALike (LDType d)) (AScalar np_complexfloating) = true)
       ∧ (d ≠ Bool → _jax_type (ADType d) true = Ok (JClass c))
       ∧ _jax_type (ADType Bool) true = Ok (JDType Bool).
Proof.
  destruct d; eexists; (split; [reflexivity|]); vm_compute; intuition congruence.
Qed.

(** ** Construction of the table of upper bounds *)

Section upper_bounds_errors.
Variable lattice : gmap JAXType (list JAXType).

Lemma tc_last_edge (n m : JAXType) :
  tc (edge lattice) n m ↔ ∃ x, rtc (edge lattice) n x ∧ edge lattice x m.
Proof.
  split.
  - intros Htc. apply (tc_ind_r (R:=edge lattice) (λ m, ∃ x, rtc (edge lattice) n x
                                                        ∧ edge lattice x m) n); [| |done].
    + intros y Hy. exists n. split; [reflexivity | done].
    + intros y z Hny Hyz _. exists y. split; [by apply tc_rtc | done].
  - intros (x & Hnx & Hxm). eapply tc_rtc_l; [done|]. by apply tc_once.
Qed.

Lemma new_upper_bounds_KeyError (ub : gset JAXType) e :
  new_upper_bounds lattice ub = Raise e →
  e = KeyError ∧ ∃ b, b ∈ ub ∧ lattice !! b = None.
Proof.
  unfold new_upper_bounds.
  destruct (mapM _ _) as [ls|] eqn:Hm; [done|]. intros [= <-]. split; [done|].
  apply mapM_None, Exists_exists in Hm as (b & Hb%elem_of_elements & Hnone).
  by exists b.
Qed.

(** The loop raises [KeyError] at a reachable node that is no key, and
    [ValueError] at a reachable node that steps back to [n]. *)
Lemma upper_bounds_loop_Raise (fuel : nat) (n : JAXType) (ub : gset JAXType) e :
  (∀ m, m ∈ ub → rtc (edge lattice) n m) →
  upper_bounds_loop fuel lattice n ub = Some (Raise e) →
  (e = KeyError ∧ ∃ m, rtc (edge lattice) n m ∧ lattice !! m = None)
  ∨ (e = ValueError ∧ on_cycle lattice n).
Proof.
  revert ub. induction fuel as [|fuel IH]; intros ub Hreach; [done|].
  simpl. destruct (new_upper_bounds lattice ub) as [new|e'] eqn:Hnew.
  - apply new_upper_bounds_Ok in Hnew as [Hkeys Hnew].
    destruct (decide (n ∈ new)) as [Hcycle|_].
    { intros [= <-]. right. split; [done|].
      apply Hnew in Hcycle as (b & Hb & Hbn). apply tc_last_edge. exists b.
      split; [by apply Hreach | done]. }
    destruct (decide (new ⊆ ub)); [done|].
    apply IH. intros m [Hm|Hm]%elem_of_union; [by apply Hreach|].
    apply Hnew in Hm as (b & Hb & Hbm). eapply rtc_r; [by apply Hreach | done].
  - intros [= <-]. apply new_upper_bounds_KeyError in Hnew as (-> & b & Hb & Hnone).
    left. split; [done|]. exists b. split; [by apply Hreach | done].
Qed.

Lemma upper_bounds_for_Raise (ns : list JAXType) acc e :
  upper_bounds_for lattice ns acc = Some (Raise e) →
  ∃ n, n ∈ ns ∧ upper_bounds_loop (S (size lattice)) lattice n {[ n ]} = Some (Raise e).
Proof.
  revert acc. induction ns as [|n0 ns IH]; intros acc; cbn [upper_bounds_for]; [done|].
  destruct (upper_bounds_loop _ _ _ _) as [[r0|e0]|] eqn:Hloop; [| |done].
  - intros (n & Hn & Hraise)%IH. exists n. split; [by right | done].
  - intros [= <-]. exists n0. split; [by left | done].
Qed.

(** X8. The construction of the table ends for every lattice, cyclic or
    with successors that are no keys: one more turn of the loop than the
    lattice has keys is always enough for each node. *)
Theorem upper_bounds_construction_ends :
  ∃ r, make_upper_bounds lattice = Some r.
Proof.
  destruct (make_upper_bounds_terminates lattice) as [r Hr]. by exists r.
Qed.

(** X9. A table that was built has the keys of the lattice, and the entry
    of a key is the set of the nodes that the lattice reaches from it in
    any number of steps, the key itself among them. *)
Theorem upper_bounds_construction_closure (UB : gmap JAXType (gset JAXType)) :
  make_upper_bounds lattice = Some (Ok UB) →
  dom UB = dom lattice
  ∧ ∀ n u, UB !! n = Some u → n ∈ u ∧ ∀ m, m ∈ u ↔ rtc (edge lattice) n m.
Proof.
  intros Hmake. split.
  - apply set_eq. intros n. rewrite !elem_of_dom.
    pose proof (make_upper_bounds_lookup lattice UB Hmake n) as Hn.
    destruct (UB !! n) as [u|].
    + destruct Hn as [Hkey _]. split; [done | by eauto].
    + rewrite Hn. split; by intros [? [=]].
  - intros n u Hu. pose proof (make_upper_bounds_lookup lattice UB Hmake n) as Hn.
    rewrite Hu in Hn. destruct Hn as (_ & Hreach & _). split; [|done].
    by apply Hreach.
Qed.

(** X10. The construction finds every defect of a lattice and only those:
    a table is built exactly when every node reached from a key is a key
    and no key lies on a cycle; [ValueError] is raised only when some key
    lies on a cycle, and [KeyError] only when a key reaches a node that
    is no key. *)
Theorem upper_bounds_construction_checks :
  ((∃ UB, make_upper_bounds lattice = Some (Ok UB))
   ↔ successors_closed lattice ∧ ∀ n, is_Some (lattice !! n) → ¬ on_cycle lattice n)
  ∧ (make_upper_bounds lattice = Some (Raise ValueError) →
     ∃ n, is_Some (lattice !! n) ∧ on_cycle lattice n)
  ∧ (make_upper_bounds lattice = Some (Raise KeyError) →
     ∃ n m, is_Some (lattice !! n) ∧ rtc (edge lattice) n m ∧ lattice !! m = None)
  ∧ ∀ e, make_upper_bounds lattice = Some (Raise e) → e = ValueError ∨ e = KeyError.
Proof.
  assert (∀ e, make_upper_bounds lattice = Some (Raise e) →
            ∃ n, is_Some (lattice !! n)
                 ∧ ((e = KeyError ∧ ∃ m, rtc (edge lattice) n m ∧ lattice !! m = None)
                    ∨ (e = ValueError ∧ on_cycle lattice n))) as Hraise.
  { intros e (n & Hn & Hloop)%upper_bounds_for_Raise.
    exists n. split; [by apply elem_of_dom, elem_of_elements|].
    eapply upper_bounds_loop_Raise; [|done]. by intros m ->%elem_of_singleton. }
  split; [|split; [|split]].
  - split.
    + intros [UB Hmake]. split.
      * intros n m [l Hl] Hnm.
        pose proof (make_upper_bounds_lookup lattice UB Hmake n) as Hn.
        destruct (UB !! n) as [u|]; [|congruence].
        destruct Hn as (_ & Hreach & Hkeys & _). by apply Hkeys, Hreach.
      * intros n [l Hl] (x & Hnx & Hxn)%tc_last_edge.
        pose proof (make_upper_bounds_lookup lattice UB Hmake n) as Hn.
        destruct (UB !! n) as [u|]; [|congruence].
        destruct Hn as (_ & _ & _ & Hacyclic). by apply (Hacyclic x).
    + intros [Hclosed Hacyclic].
      destruct (make_upper_bounds_terminates lattice) as [[UB|e] Hr]; [by exists UB|].
      destruct (Hraise e Hr) as (n & Hn & [(_ & m & Hnm & Hnone)|(_ & Hcycle)]).
      * destruct (Hclosed n m Hn Hnm). congruence.
      * by destruct (Hacyclic n Hn).
  - intros (n & Hn & [([=] & _)|(_ & Hcycle)])%Hraise. by exists n.
  - intros (n & Hn & [(_ & m & Hnm & Hnone)|([=] & _)])%Hraise. by exists n, m.
  - intros e (n & _ & [(-> & _)|(-> & _)])%Hraise; auto.
Qed.

End upper_bounds_errors.

Lemma upper_bounds_construction_closure_witness :
  ∃ UB, make_upper_bounds (dict_of [(JDType Bool, [i_]); (i_, [])]) = Some (Ok UB)
        ∧ dom UB = dom (dict_of [(JDType Bool, [i_]); (i_, [])]).
Proof.
  assert (match make_upper_bounds (dict_of [(JDType Bool, [i_]); (i_, [])]) with
          | Some (Ok _) => true
          | _ => false
          end = true) as Hbuilt by (vm_compute; reflexivity).
  destruct (make_upper_bounds (dict_of [(JDType Bool, [i_]); (i_, [])]))
    as [[UB|e]|] eqn:Hmake; [|discriminate Hbuilt..].
  exists UB. split; [reflexivity|].
  exact (proj1 (upper_bounds_construction_closure _ _ Hmake)).
Defined.

Lemma upper_bounds_construction_checks_witness :
  make_upper_bounds (dict_of [(i_, [f_]); (f_, [i_])]) = Some (Raise ValueError)
  ∧ ∃ n, is_Some (dict_of [(i_, [f_]); (f_, [i_])] !! n)
         ∧ on_cycle (dict_of [(i_, [f_]); (f_, [i_])]) n.
Proof.
  assert (make_upper_bounds (dict_of [(i_, [f_]); (f_, [i_])]) = Some (Raise ValueError))
    as Hmake by (vm_compute; reflexivity).
  split; [exact Hmake|].
  destruct (upper_bounds_construction_checks (dict_of [(i_, [f_]); (f_, [i_])]))
    as (_ & Hcycle & _).
  exact (Hcycle Hmake).
Defined.

(** ** The solver: order of the inputs, invalid inputs, folding *)

Lemma existsb_same_members {A} (f : A → bool) (l l' : list A) :
  (∀ x, x ∈ l ↔ x ∈ l') → existsb f l = existsb f l'.
Proof.
  intros Hsame. apply eq_true_iff_eq. rewrite !existsb_elem_of.
  by setoid_rewrite Hsame.
Qed.

Lemma least_upper_bound_in_same_members (UB : gmap JAXType (gset JAXType)) (cfg : Config)
    (nodes nodes' : list JAXType) :
  (∀ n, n ∈ nodes ↔ n ∈ nodes') →
  least_upper_bound_in UB cfg nodes = least_upper_bound_in UB cfg nodes'.
Proof.
  intros Hsame.
  assert (list_to_set nodes = (list_to_set nodes' : gset JAXType)) as Hset.
  { apply set_eq. intros n. by rewrite !elem_of_list_to_set. }
  assert (no_path_message cfg nodes = no_path_message cfg nodes') as Hmsg.
  { unfold no_path_message.
    by rewrite !(existsb_same_members _ nodes nodes' Hsame). }
  unfold least_upper_bound_in, least_upper_bound_set. rewrite Hset.
  match goal with |- mbind _ ?X = _ => destruct X as [LUB|e] end; [|reflexivity].
  cbn [mbind res_bind]. by rewrite Hmsg.
Qed.

(** X11. The solver reads its inputs as a set: the order of the nodes and
    their repetitions change neither the node returned nor the exception
    raised, by its class and, for a [TypePromotionError], by which of the
    five messages it carries. The text of a message lists the nodes as
    they were passed, and that listing is all that can differ. *)
Theorem least_upper_bound_same_members (cfg : Config) (p : Policy)
    (nodes nodes' : list JAXType) :
  (∀ n, n ∈ nodes ↔ n ∈ nodes') →
  _least_upper_bound cfg p nodes = _least_upper_bound cfg p nodes'.
Proof. apply least_upper_bound_in_same_members. Qed.

Lemma least_upper_bound_same_members_witness :
  (∀ n, n ∈ [JDType Int8; JDType UInt8] ↔ n ∈ [JDType UInt8; JDType Int8; JDType UInt8])
  ∧ _least_upper_bound config_default standard [JDType Int8; JDType UInt8]
    = _least_upper_bound config_default standard [JDType UInt8; JDType Int8; JDType UInt8].
Proof.
  assert (∀ n, n ∈ [JDType Int8; JDType UInt8]
               ↔ n ∈ [JDType UInt8; JDType Int8; JDType UInt8]) as Hsame.
  { intros n. rewrite !list_elem_of_In. simpl. tauto. }
  split; [exact Hsame|].
  exact (least_upper_bound_same_members config_default standard _ _ Hsame).
Defined.

Lemma least_upper_bound_nil (cfg : Config) (p : Policy) :
  _least_upper_bound cfg p [] = Raise TypeError.
Proof.
  unfold _least_upper_bound, least_upper_bound_in, least_upper_bound_set.
  change (list_to_set []) with (∅ : gset JAXType). by rewrite elements_empty.
Qed.

Lemma least_upper_bound_unknown (cfg : Config) (p : Policy) (nodes : list JAXType)
    (n : JAXType) :
  n ∈ nodes → n ∉ _weak_types ++ _jax_types →
  _least_upper_bound cfg p nodes = Raise ValueError.
Proof.
  intros Hn Hunknown.
  unfold _least_upper_bound, least_upper_bound_in, least_upper_bound_set.
  assert (mapM (λ n, _lattice_upper_bounds p !! n) (elements (list_to_set nodes : gset JAXType))
          = None) as ->; [|reflexivity].
  apply mapM_None, Exists_exists. exists n. split.
  - by apply elem_of_elements, elem_of_list_to_set.
  - apply eq_None_not_Some. intros Hsome. by apply _lattice_upper_bounds_known in Hsome.
Qed.

(** X12. Without a node the solver raises [TypeError]; with a node that is
    not in the lattice, such as the class [bool] or an extended dtype,
    it raises [ValueError] and not [TypePromotionError], whatever the
    other nodes are. *)
Theorem least_upper_bound_invalid (cfg : Config) (p : Policy) :
  _least_upper_bound cfg p [] = Raise TypeError
  ∧ ∀ nodes n, n ∈ nodes → n ∉ _weak_types ++ _jax_types →
      _least_upper_bound cfg p nodes = Raise ValueError.
Proof.
  split; [apply least_upper_bound_nil|]. intros nodes n. apply least_upper_bound_unknown.
Qed.

Lemma least_upper_bound_invalid_witness :
  (JClass py_bool ∈ [JDType Int8; JClass py_bool])
  ∧ (JClass py_bool ∉ _weak_types ++ _jax_types)
  ∧ _least_upper_bound config_default standard [JDType Int8; JClass py_bool]
    = Raise ValueError.
Proof.
  assert (JClass py_bool ∈ [JDType Int8; JClass py_bool]) as Hin.
  { apply list_elem_of_In. simpl. tauto. }
  assert (JClass py_bool ∉ _weak_types ++ _jax_types) as Hunknown.
  { intros H. apply list_elem_of_In in H. simpl in H.
    repeat (destruct H as [H|H]; [discriminate H|]). exact H. }
  split; [exact Hin|]. split; [exact Hunknown|].
  exact (proj2 (least_upper_bound_invalid config_default standard) _ _ Hin Hunknown).
Defined.

(** X13. Bounds can be taken in steps: when [x] is the least upper bound
    of some nodes, the least upper bound of [x] and further nodes is the
    one of all the nodes together, and the one exists when the other
    does. *)
Theorem least_upper_bound_fold (cfg : Config) (p : Policy) (nodes rest : list JAXType)
    (x : JAXType) :
  nodes ≠ [] →
  (∀ n, n ∈ nodes ++ rest → n ∈ _weak_types ++ _jax_types) →
  _least_upper_bound cfg p nodes = Ok x →
  ∀ r, _least_upper_bound cfg p (x :: rest) = Ok r
       ↔ _least_upper_bound cfg p (nodes ++ rest) = Ok r.
Proof.
  intros Hne Hknown Hx r.
  pose proof (_lattice_upper_bounds_wf p) as Hwf.
  set (UB := _lattice_upper_bounds p) in *.
  assert (∀ n, n ∈ nodes ++ rest → is_Some (UB !! n)) as HknownUB.
  { intros n Hn. by apply _lattice_upper_bounds_known, Hknown. }
  assert (∀ n, n ∈ nodes → is_Some (UB !! n)) as Hnodes.
  { intros n Hn. apply HknownUB, elem_of_app. by left. }
  destruct (least_upper_bound_in_spec UB Hwf cfg nodes Hne Hnodes) as [Hspec _].
  apply Hspec in Hx as [Hxub Hxleast].
  assert (is_Some (UB !! x)) as Hxkey.
  { destruct nodes as [|n0 ns]; [done|].
    destruct (Hxub n0) as (u & Hu & Hxu); [apply elem_of_list_to_set; by left|].
    destruct (ub_trans UB Hwf n0 u x Hu Hxu) as (ux & Hux & _). by exists ux. }
  assert (∀ d, common_upper_bound UB (list_to_set (x :: rest)) d
               ↔ common_upper_bound UB (list_to_set (nodes ++ rest)) d) as Hcub.
  { intros d. unfold common_upper_bound.
    setoid_rewrite elem_of_list_to_set. setoid_rewrite elem_of_cons.
    setoid_rewrite elem_of_app. split.
    - intros Hd n [Hn|Hn]; [|by apply Hd; right].
      apply (le_in_trans UB Hwf n x d); [|by apply Hd; left].
      by apply Hxub, elem_of_list_to_set.
    - intros Hd n [->|Hn]; [|by apply Hd; right].
      apply Hxleast. intros n Hn%elem_of_list_to_set. apply Hd. by left. }
  assert (∀ c, is_least_upper_bound UB (list_to_set (x :: rest)) c
               ↔ is_least_upper_bound UB (list_to_set (nodes ++ rest)) c) as Hlub.
  { intros c. unfold is_least_upper_bound. rewrite Hcub. by setoid_rewrite Hcub. }
  unfold _least_upper_bound. fold UB.
  destruct (least_upper_bound_in_spec UB Hwf cfg (x :: rest)) as [Hleft _]; [done| |].
  { intros n [->|Hn]%elem_of_cons; [done|]. apply HknownUB, elem_of_app. by right. }
  destruct (least_upper_bound_in_spec UB Hwf cfg (nodes ++ rest)) as [Hright _];
    [by destruct nodes | done |].
  by rewrite Hleft, Hright.
Qed.

Lemma least_upper_bound_fold_witness :
  _least_upper_bound config_default standard [JDType Int8; JDType UInt8] = Ok (JDType Int16)
  ∧ (_least_upper_bound config_default standard [JDType Int16; JDType Float16]
     = Ok (JDType Float16)
     ↔ _least_upper_bound config_default standard [JDType Int8; JDType UInt8; JDType Float16]
       = Ok (JDType Float16)).
Proof.
  assert (_least_upper_bound config_default standard [JDType Int8; JDType UInt8]
          = Ok (JDType Int16)) as Hx by (vm_compute; reflexivity).
  split; [exact Hx|].
  apply (least_upper_bound_fold config_default standard
           [JDType Int8; JDType UInt8] [JDType Float16] (JDType Int16)).
  - discriminate.
  - intros n Hn. apply list_elem_of_In. apply list_elem_of_In in Hn. simpl in *.
    intuition (subst; auto 40).
  - exact Hx.
Defined.

(** ** Promotion of two tags, further *)

Lemma promotion_node_Raise (a : DTypeLike) e : promotion_node a = Raise e → e = TypeError.
Proof. destruct a as [|[]|d|ext]; intros [=]; done. Qed.

Lemma least_upper_bound_same_members_helper (cfg : Config) (x y : JAXType) :
  _least_upper_bound cfg (numpy_dtype_promotion cfg) [x; y]
  = _least_upper_bound cfg (numpy_dtype_promotion cfg) [y; x].
Proof.
  apply least_upper_bound_in_same_members. intros n. rewrite !list_elem_of_In. simpl. tauto.
Qed.

(** X14. [promote_types] is symmetric in its two arguments, under either
    policy and on every input, the failing ones included. *)
Theorem promote_types_comm (cfg : Config) (a b : DTypeLike) :
  promote_types cfg a b = promote_types cfg b a.
Proof.
  unfold promote_types.
  destruct (promotion_node a) as [a_tp|ea] eqn:Ha, (promotion_node b) as [b_tp|eb] eqn:Hb;
    cbn [mbind res_bind]; try reflexivity.
  - rewrite (least_upper_bound_same_members_helper cfg a_tp b_tp). reflexivity.
  - apply promotion_node_Raise in Ha, Hb. by subst.
Qed.

Lemma standard_promotable_check :
  (λ UB, forallb (λ a, forallb (λ b,
     match promote_types_over UB config_default (LDType a) (LDType b) with
     | Ok r => standard_promotable a b
               && bool_decide (promote_types_over UB config_default (LDType r) (LDType a)
                               = Ok r)
               && bool_decide (promote_types_over UB config_default (LDType r) (LDType b)
                               = Ok r)
     | Raise (TypePromotionError msg) =>
         negb (standard_promotable a b)
         && bool_decide (msg ∈ [Float8Msg; Int4Msg])
     | Raise _ => false
     end) DType_enum) DType_enum) (_lattice_upper_bounds standard) = true.
Proof. vm_compute. reflexivity. Qed.

(** X15. Under the standard policy two concrete tags fail to promote only
    around a narrow tag: [promote_types] returns a dtype when the tags
    are equal or each narrow one among them has the other below it, and
    raises [TypePromotionError] with the 8-bit float or 4-bit integer
    message otherwise. The dtype returned absorbs both arguments. *)
Theorem promote_types_standard_total (cfg : Config) (a b : DType) :
  numpy_dtype_promotion cfg = standard →
  (standard_promotable a b = true →
     ∃ r, promote_types cfg (LDType a) (LDType b) = Ok r
          ∧ promote_types cfg (LDType r) (LDType a) = Ok r
          ∧ promote_types cfg (LDType r) (LDType b) = Ok r)
  ∧ (standard_promotable a b = false →
     ∃ msg, promote_types cfg (LDType a) (LDType b) = Raise (TypePromotionError msg)
            ∧ (msg = Float8Msg ∨ msg = Int4Msg)).
Proof.
  intros Hstandard.
  assert (∀ x y, promote_types cfg x y
            = promote_types_over (_lattice_upper_bounds standard) config_default x y) as Hcfg.
  { intros x y. rewrite (promote_types_policy cfg config_default) by exact Hstandard.
    apply promote_types_over_table. reflexivity. }
  rewrite !Hcfg.
  pose proof standard_promotable_check as Hall. cbv beta in Hall.
  pose proof (forallb_DType _ (forallb_DType _ Hall a) b) as Hab. clear Hall.
  cbv beta in Hab.
  destruct (promote_types_over (_lattice_upper_bounds standard) config_default
              (LDType a) (LDType b)) as [r|e].
  - apply andb_true_iff in Hab as [Hab H2]. apply andb_true_iff in Hab as [Hok H1].
    apply bool_decide_eq_true in H1. apply bool_decide_eq_true in H2.
    split; [|intros Hno; rewrite Hno in Hok; discriminate Hok].
    intros _. exists r. rewrite !Hcfg. auto.
  - destruct e as [| | | |msg]; try discriminate Hab.
    apply andb_true_iff in Hab as [Hno Hmsg].
    apply negb_true_iff in Hno. apply bool_decide_eq_true, list_elem_of_In in Hmsg.
    split; [intros Hok; rewrite Hok in Hno; discriminate Hno|].
    intros _. exists msg. split; [reflexivity|].
    simpl in Hmsg. destruct Hmsg as [<-|[<-|[]]]; auto.
Qed.

Lemma promote_types_standard_total_witness :
  numpy_dtype_promotion config_default = standard
  ∧ standard_promotable UInt64 Int64 = true
  ∧ (∃ r, promote_types config_default (LDType UInt64) (LDType Int64) = Ok r)
  ∧ standard_promotable Int4 Int8 = false
  ∧ ∃ msg, promote_types config_default (LDType Int4) (LDType Int8)
           = Raise (TypePromotionError msg).
Proof.
  split; [reflexivity|]. split; [reflexivity|].
  destruct (promote_types_standard_total config_default UInt64 Int64 eq_refl) as [Hok _].
  destruct (promote_types_standard_total config_default Int4 Int8 eq_refl) as [_ Hno].
  destruct (Hok eq_refl) as (r & Hr & _). destruct (Hno eq_refl) as (msg & Hmsg & _).
  split; [by exists r|]. split; [reflexivity|]. by exists msg.
Defined.

Lemma promote_types_bounds_check :
  (λ UB, forallb (λ a,
     bool_decide (promote_types_over UB config_default (LDType Bool) (LDType a) = Ok a)
     && (bool_decide (a ∈ narrow_dtypes)
         || bool_decide (promote_types_over UB config_default (LDType Complex128) (LDType a)
                         = Ok Complex128)))
     DType_enum) (_lattice_upper_bounds standard) = true.
Proof. vm_compute. reflexivity. Qed.

(** X16. Under the standard policy bool is the least tag and [complex128]
    the greatest one: promoting bool with any concrete tag gives that
    tag, narrow or not, and promoting [complex128] with any concrete tag
    that is not narrow gives [complex128]. *)
Theorem promote_types_standard_bounds (cfg : Config) (a : DType) :
  numpy_dtype_promotion cfg = standard →
  promote_types cfg (LDType Bool) (LDType a) = Ok a
  ∧ (a ∉ narrow_dtypes → promote_types cfg (LDType Complex128) (LDType a) = Ok Complex128).
Proof.
  intros Hstandard.
  assert (∀ x y, promote_types cfg x y
            = promote_types_over (_lattice_upper_bounds standard) config_default x y) as Hcfg.
  { intros x y. rewrite (promote_types_policy cfg config_default) by exact Hstandard.
    apply promote_types_over_table. reflexivity. }
  rewrite !Hcfg.
  pose proof (forallb_DType _ promote_types_bounds_check a) as Ha. cbv beta in Ha.
  apply andb_true_iff in Ha as [Hbool Hcomplex].
  apply bool_decide_eq_true in Hbool. split; [exact Hbool|].
  intros Hnarrow. apply orb_true_iff in Hcomplex as [Hin|Hcomplex].
  - apply bool_decide_eq_true in Hin. contradiction.
  - apply bool_decide_eq_true in Hcomplex. exact Hcomplex.
Qed.

Lemma promote_types_standard_bounds_witness :
  numpy_dtype_promotion config_default = standard
  ∧ promote_types config_default (LDType Bool) (LDType Int4) = Ok Int4
  ∧ (Float16 ∉ narrow_dtypes)
  ∧ promote_types config_default (LDType Complex128) (LDType Float16) = Ok Complex128.
Proof.
  assert (Float16 ∉ narrow_dtypes) as Hnarrow.
  { intros H. apply list_elem_of_In in H. simpl in H.
    repeat (destruct H as [H|H]; [discriminate H|]). exact H. }
  split; [reflexivity|].
  split; [exact (proj1 (promote_types_standard_bounds config_default Int4 eq_refl))|].
  split; [exact Hnarrow|].
  exact (proj2 (promote_types_standard_bounds config_default Float16 eq_refl) Hnarrow).
Defined.

(** ** Canonical dtypes *)

Lemma canonicalize_dtype_Ok (cfg : Config) (x : DTypeLike) (allow : bool) (r : AnyDType) :
  canonicalize_dtype cfg x allow = Ok r →
  is_canonical cfg r
  ∧ canonicalize_dtype cfg (like_of_dtype r) allow = Ok r
  ∧ canonicalize_dtype cfg (like_of_dtype r) true = Ok r.
Proof.
  unfold canonicalize_dtype, _canonicalize_dtype.
  destruct x as [|c|d|e].
  - destruct (enable_x64 cfg) eqn:Hx64; intros [= <-]; cbn; rewrite ?Hx64;
      repeat split; try done. intros _ Hin. apply list_elem_of_In in Hin. simpl in Hin.
    repeat (destruct Hin as [Hin|Hin]; [discriminate Hin|]). exact Hin.
  - destruct (enable_x64 cfg) eqn:Hx64, c; intros [= <-]; cbn; rewrite ?Hx64;
      repeat split; try done; intros _ Hin; apply list_elem_of_In in Hin; simpl in Hin;
      repeat (destruct Hin as [Hin|Hin]; [discriminate Hin|]); exact Hin.
  - destruct (enable_x64 cfg) eqn:Hx64, d; intros [= <-]; cbn; rewrite ?Hx64;
      repeat split; try done; intros _ Hin; apply list_elem_of_In in Hin; simpl in Hin;
      repeat (destruct Hin as [Hin|Hin]; [discriminate Hin|]); exact Hin.
  - rewrite issubdtype_extended. destruct allow; [|done]. intros [= <-].
    cbn [like_of_dtype]. rewrite issubdtype_extended. done.
Qed.

(** X17. [canonicalize_dtype] is idempotent: what it returns is canonical
    under the flags, so in 32-bit mode none of the four 64-bit tags, and
    canonicalising it again returns it unchanged. *)
Theorem canonicalize_dtype_idempotent (cfg : Config) (x : DTypeLike) (allow : bool)
    (r : AnyDType) :
  canonicalize_dtype cfg x allow = Ok r →
  is_canonical cfg r ∧ canonicalize_dtype cfg (like_of_dtype r) allow = Ok r.
Proof.
  intros Hr. destruct (canonicalize_dtype_Ok cfg x allow r Hr) as (? & ? & _). by split.
Qed.

Lemma canonicalize_dtype_idempotent_witness :
  canonicalize_dtype config_default (LClass py_float) false = Ok (ADType Float32)
  ∧ canonicalize_dtype config_default (LDType Float32) false = Ok (ADType Float32).
Proof.
  assert (canonicalize_dtype config_default (LClass py_float) false = Ok (ADType Float32))
    as Hr by reflexivity.
  split; [exact Hr|].
  exact (proj2 (canonicalize_dtype_idempotent config_default _ false _ Hr)).
Defined.

(** X18. [dtype(x, canonicalize=True)] returns a canonical dtype for every
    argument but a scalar class: the branch for scalar classes returns
    before the canonicalisation, so such a class always gives its own
    dtype, [int64] for [np.int64] in 32-bit mode too. *)
Theorem dtype_canonicalize (cfg : Config) (x : Operand) :
  (∀ d, dtype cfg (OpScalarClass d) true = Ok (ADType d))
  ∧ ∀ r, dtype cfg x true = Ok r →
      (∀ d, x ≠ OpScalarClass d) →
      is_canonical cfg r
      ∧ ∃ dt, dtype cfg x false = Ok dt
              ∧ canonicalize_dtype cfg (like_of_dtype dt) true = Ok r.
Proof.
  split; [done|]. intros r Hr Hx.
  destruct x as [|c|c|d|d|e|d w|e]; cbn in Hr |- *; try done.
  - split; [by eapply canonicalize_dtype_Ok | by eexists].
  - split; [by eapply canonicalize_dtype_Ok | by eexists].
  - by destruct (Hx d).
  - split; [by eapply canonicalize_dtype_Ok | by eexists].
  - split; [by eapply canonicalize_dtype_Ok | by eexists].
  - rewrite issubdtype_extended in Hr |- *.
    split; [by eapply canonicalize_dtype_Ok | by eexists].
Qed.

Lemma dtype_canonicalize_witness :
  dtype config_default (OpScalarClass Int64) true = Ok (ADType Int64)
  ∧ dtype config_default (OpDType Int64) true = Ok (ADType Int32)
  ∧ is_canonical config_default (ADType Int32).
Proof.
  assert (dtype config_default (OpDType Int64) true = Ok (ADType Int32)) as Hr by reflexivity.
  destruct (dtype_canonicalize config_default (OpDType Int64)) as [Hclass Hcanon].
  split; [exact (Hclass Int64)|]. split; [exact Hr|].
  apply (Hcanon _ Hr). intros d. discriminate.
Defined.

(** X19. Whatever the operands, the dtype [result_type] returns is
    canonical: in 32-bit mode it is never one of the four 64-bit tags. *)
Theorem result_type_canonical (cfg : Config) (args : list Operand)
    (return_weak_type_flag : bool) (r : ResultType) :
  result_type cfg args return_weak_type_flag = Ok r →
  is_canonical cfg match r with RDType dt | RPair dt _ => dt end.
Proof.
  unfold result_type. destruct (bool_decide (length args = 0)); [done|].
  destruct (_lattice_result_type cfg _) as [[d0 w0]|e]; [|done].
  cbn [mbind res_bind].
  match goal with |- mbind _ ?X = _ → _ => destruct X as [dt|e] eqn:Hdt end; [|done].
  cbn [mbind res_bind]. intros [= <-].
  assert (is_canonical cfg dt) as Hcanon; [|by destruct return_weak_type_flag].
  destruct w0.
  - destruct (if in_dtypes d0 _custom_float_dtypes then _ else _) as [k|]; [|done].
    cbn [mbind res_bind] in Hdt.
    destruct (_default_types cfg k) as [default|]; [|done].
    cbn [mbind res_bind] in Hdt. by eapply canonicalize_dtype_Ok.
  - by eapply canonicalize_dtype_Ok.
Qed.

Lemma result_type_canonical_witness :
  result_type config_default [OpArray Int64 false; OpArray UInt64 false] true
  = Ok (RPair (ADType Float32) true)
  ∧ is_canonical config_default (ADType Float32).
Proof.
  assert (result_type config_default [OpArray Int64 false; OpArray UInt64 false] true
          = Ok (RPair (ADType Float32) true)) as Hr by (vm_compute; reflexivity).
  split; [exact Hr|].
  exact (result_type_canonical config_default _ true _ Hr).
Defined.

(** ** Casting, further *)

(** X20. Every dtype or value casts safely to itself, under either policy:
    [safe_to_cast(x, x)] is true whenever [x] has a dtype, and raises
    what [dtype] raises otherwise. *)
Theorem safe_to_cast_refl (cfg : Config) (x : Operand) :
  safe_to_cast cfg x x = (dtype cfg x true ≫= λ _, Ok true).
Proof.
  unfold safe_to_cast. destruct (dtype cfg x true) as [d|e]; [|reflexivity].
  cbn [mbind res_bind]. by rewrite bool_decide_eq_true_2.
Qed.

(** ** Dtypes of Python scalars *)

(** X21. [_scalar_type_to_dtype] gives the canonical dtype of the Python
    class, and checks a Python integer against the range of that dtype:
    it raises [OverflowError] exactly when the integer does not fit in
    64 bits, or in 32 bits in 32-bit mode. No other class and no call
    without a value raises. *)
Theorem scalar_type_to_dtype_range (cfg : Config) (typ : PyClass) (value : option Z) :
  (typ ≠ py_int ∨ value = None →
   _scalar_type_to_dtype cfg typ value
   = ScalarDTypeOf (canonicalize_dtype cfg (LDType (python_scalar_dtypes typ)) false)
   ∧ ∃ d, canonicalize_dtype cfg (LDType (python_scalar_dtypes typ)) false = Ok (ADType d))
  ∧ ∀ v, let bits := if enable_x64 cfg then 64%Z else 32%Z in
         ((- 2 ^ (bits - 1) ≤ v < 2 ^ (bits - 1))%Z →
          _scalar_type_to_dtype cfg py_int (Some v)
          = ScalarDTypeOf (Ok (ADType (if enable_x64 cfg then Int64 else Int32))))
         ∧ (¬ (- 2 ^ (bits - 1) ≤ v < 2 ^ (bits - 1))%Z →
            _scalar_type_to_dtype cfg py_int (Some v) = OverflowError).
Proof.
  unfold _scalar_type_to_dtype, canonicalize_dtype. split.
  - intros Hcase. destruct (enable_x64 cfg), typ, value as [v|];
      try (destruct Hcase as [Hcase|Hcase]; [by destruct Hcase | discriminate Hcase]);
      cbn; split; try reflexivity; by eexists.
  - intros v. cbv zeta.
    assert (_canonicalize_dtype true false (LDType Int64) = Ok (ADType Int64)) as H64
      by reflexivity.
    assert (_canonicalize_dtype false false (LDType Int64) = Ok (ADType Int32)) as H32
      by reflexivity.
    cbn [python_scalar_dtypes].
    destruct (enable_x64 cfg); rewrite ?H64, ?H32; cbn [np_iinfo].
    + split; intros Hv.
      * rewrite bool_decide_eq_false_2 by lia. rewrite bool_decide_eq_false_2 by lia. done.
      * destruct (decide (v < -9223372036854775808)%Z).
        { by rewrite bool_decide_eq_true_2. }
        rewrite bool_decide_eq_false_2 by done. rewrite bool_decide_eq_true_2 by lia. done.
    + split; intros Hv.
      * rewrite bool_decide_eq_false_2 by lia. rewrite bool_decide_eq_false_2 by lia. done.
      * destruct (decide (v < -2147483648)%Z).
        { by rewrite bool_decide_eq_true_2. }
        rewrite bool_decide_eq_false_2 by done. rewrite bool_decide_eq_true_2 by lia. done.
Qed.

Lemma scalar_type_to_dtype_range_witness :
  _scalar_type_to_dtype config_default py_int (Some 0%Z) = ScalarDTypeOf (Ok (ADType Int32))
  ∧ _scalar_type_to_dtype config_default py_int (Some (2 ^ 31)%Z) = OverflowError
  ∧ _scalar_type_to_dtype config_x64 py_int (Some (2 ^ 63)%Z) = OverflowError.
Proof.
  destruct (scalar_type_to_dtype_range config_default py_int None) as [_ H32].
  destruct (scalar_type_to_dtype_range config_x64 py_int None) as [_ H64].
  split; [apply (H32 0%Z); simpl; lia|].
  split; [apply (H32 (2 ^ 31)%Z); simpl; lia | apply (H64 (2 ^ 63)%Z); simpl; lia].
Defined.

(** ** The result type of dtype objects *)

Lemma least_upper_bound_Ok_inv (cfg : Config) (p : Policy) (nodes : list JAXType)
    (r : JAXType) :
  _least_upper_bound cfg p nodes = Ok r →
  is_least_upper_bound (_lattice_upper_bounds p) (list_to_set nodes) r.
Proof.
  intros Hr.
  pose proof (_lattice_upper_bounds_wf p) as Hwf.
  destruct (decide (Forall (λ n, n ∈ _weak_types ++ _jax_types) nodes)) as [Hknown|Hunknown].
  - rewrite Forall_forall in Hknown.
    destruct nodes as [|n0 ns]; [by rewrite least_upper_bound_nil in Hr|].
    destruct (least_upper_bound_in_spec _ Hwf cfg (n0 :: ns)) as [Hspec _]; [done| |].
    { intros n Hn. by apply _lattice_upper_bounds_known, Hknown. }
    by apply Hspec.
  - apply not_Forall_Exists in Hunknown; [|apply _].
    apply Exists_exists in Hunknown as (n & Hn & Hunknown).
    by rewrite (least_upper_bound_unknown cfg p nodes n Hn Hunknown) in Hr.
Qed.

Lemma least_upper_bound_Ok_known (cfg : Config) (p : Policy) (nodes : list JAXType)
    (r : JAXType) :
  _least_upper_bound cfg p nodes = Ok r → r ∈ _weak_types ++ _jax_types.
Proof.
  intros Hr. pose proof (_lattice_upper_bounds_wf p) as Hwf.
  assert (nodes ≠ []) as Hne.
  { intros ->. by rewrite least_upper_bound_nil in Hr. }
  apply least_upper_bound_Ok_inv in Hr as [Hub _].
  destruct nodes as [|n0 ns]; [done|].
  destruct (Hub n0) as (u & Hu & Hru); [apply elem_of_list_to_set; by left|].
  destruct (ub_trans _ Hwf n0 u r Hu Hru) as (ur & Hur & _).
  apply (_lattice_upper_bounds_known p). by exists ur.
Qed.

Lemma least_upper_bound_elements (cfg : Config) (p : Policy) (nodes : list JAXType) :
  _least_upper_bound cfg p (elements (list_to_set nodes : gset JAXType))
  = _least_upper_bound cfg p nodes.
Proof.
  apply least_upper_bound_in_same_members. intros n.
  by rewrite elem_of_elements, elem_of_list_to_set.
Qed.

Lemma least_upper_bound_singleton (cfg : Config) (p : Policy) (n : JAXType) :
  n ∈ _weak_types ++ _jax_types → _least_upper_bound cfg p [n; n] = Ok n.
Proof.
  intros Hn. pose proof (_lattice_upper_bounds_wf p) as Hwf.
  assert (is_Some (_lattice_upper_bounds p !! n)) as Hkey
    by (by apply _lattice_upper_bounds_known).
  unfold _least_upper_bound.
  destruct (least_upper_bound_in_spec _ Hwf cfg [n; n]) as [Hspec _]; [done| |].
  { intros m Hm. apply list_elem_of_In in Hm. simpl in Hm.
    by destruct Hm as [<-|[<-|[]]]. }
  apply Hspec. split.
  - intros m Hm. apply elem_of_list_to_set, list_elem_of_In in Hm. simpl in Hm.
    destruct Hm as [<-|[<-|[]]]; by apply le_in_refl.
  - intros d Hd. apply Hd, elem_of_list_to_set. by left.
Qed.

Lemma JDType_known (d : DType) : JDType d ∈ _weak_types ++ _jax_types.
Proof. apply list_elem_of_In. destruct d; simpl; auto 40. Qed.

Lemma _lattice_result_type_dtypes (cfg : Config) (a b : DType) :
  _lattice_result_type cfg [OpDType a; OpDType b]
  = (r ← _least_upper_bound cfg (numpy_dtype_promotion cfg) [JDType a; JDType b];
     out ← dtype cfg (operand_of_node r) false;
     Ok (out, negb (is_bool out) && bool_decide (r ∈ _weak_types))).
Proof.
  unfold _lattice_result_type.
  change (mapM (_dtype_and_weaktype cfg) [OpDType a; OpDType b])
    with (Ok [(ADType a, false); (ADType b, false)] : res (list (AnyDType * bool))).
  cbn [mbind res_bind fmap list_fmap fst snd length forallb id andb negb].
  rewrite (bool_decide_eq_false_2 (2 = 1)) by lia.
  destruct (decide (a = b)) as [->|Hab].
  - change (list_to_set [ADType b; ADType b] : gset AnyDType)
      with ({[ADType b]} ∪ ({[ADType b]} ∪ ∅) : gset AnyDType).
    rewrite union_empty_r_L, union_idemp_L.
    rewrite size_singleton, bool_decide_eq_true_2 by done.
    rewrite least_upper_bound_singleton by apply JDType_known.
    cbn [mbind res_bind operand_of_node dtype].
    rewrite (bool_decide_eq_false_2 (JDType b ∈ _weak_types)).
    + cbn [andb mbind res_bind]. by rewrite andb_false_r.
    + intros Hin. apply list_elem_of_In in Hin. simpl in Hin.
      repeat (destruct Hin as [Hin|Hin]; [discriminate Hin|]). exact Hin.
  - assert (size (list_to_set [ADType a; ADType b] : gset AnyDType) = 2) as ->.
    { change (list_to_set [ADType a; ADType b] : gset AnyDType)
        with ({[ADType a]} ∪ ({[ADType b]} ∪ ∅) : gset AnyDType).
      rewrite union_empty_r_L.
      rewrite size_union
        by (apply disjoint_singleton_l; rewrite elem_of_singleton; congruence).
      by rewrite !size_singleton. }
    rewrite (bool_decide_eq_false_2 (2 = 1)) by lia.
    change (mapM (λ dw : AnyDType * bool, _jax_type dw.1 dw.2)
              [(ADType a, false); (ADType b, false)])
      with (Ok [JDType a; JDType b] : res (list JAXType)).
    cbn [mbind res_bind]. rewrite least_upper_bound_elements.
    destruct (_least_upper_bound cfg (numpy_dtype_promotion cfg) [JDType a; JDType b])
      as [r|e]; [|reflexivity].
    cbn [mbind res_bind].
    destruct (dtype cfg (operand_of_node r) false) as [out|e]; reflexivity.
Qed.

(** X22. On two dtype objects [result_type] is [promote_types] followed by
    [canonicalize_dtype], errors included, when [default_dtype_bits] is
    64 or the 64-bit mode is off. With 32 default bits in 64-bit mode the
    two differ: [int64] and [uint64] promote to [float64], and have the
    result type [float32]. *)
Theorem result_type_dtypes (cfg : Config) (a b : DType) :
  (default_dtype_bits cfg = bits64 ∨ enable_x64 cfg = false →
   result_type cfg [OpDType a; OpDType b] false
   = (r ← promote_types cfg (LDType a) (LDType b);
      RDType <$> canonicalize_dtype cfg (LDType r) false))
  ∧ (default_dtype_bits cfg = bits32 → enable_x64 cfg = true →
     numpy_dtype_promotion cfg = standard →
     result_type cfg [OpDType Int64; OpDType UInt64] false = Ok (RDType (ADType Float32))
     ∧ promote_types cfg (LDType Int64) (LDType UInt64) = Ok Float64).
Proof.
  split.
  - intros Hcfg. unfold result_type, promote_types.
    cbn [length fmap list_fmap promotion_node np_dtype res_fmap mbind res_bind].
    rewrite (bool_decide_eq_false_2 (2 = 0)) by lia.
    rewrite _lattice_result_type_dtypes.
    destruct (_least_upper_bound cfg (numpy_dtype_promotion cfg) [JDType a; JDType b])
      as [r|e] eqn:Hr; [|reflexivity].
    apply least_upper_bound_Ok_known in Hr. clear a b.
    destruct cfg as [x64 p bits]. cbn [default_dtype_bits enable_x64] in Hcfg.
    apply list_elem_of_In in Hr. simpl in Hr.
    repeat (destruct Hr as [<-|Hr];
            [destruct Hcfg as [->| ->]; [destruct x64|destruct bits]; reflexivity|]).
    destruct Hr.
  - intros Hbits Hx64 Hp. destruct cfg as [x64 p bits]. cbn in Hbits, Hx64, Hp. subst.
    split; vm_compute; reflexivity.
Qed.

Lemma result_type_dtypes_witness :
  result_type config_default [OpDType Int16; OpDType Float64] false
  = (r ← promote_types config_default (LDType Int16) (LDType Float64);
     RDType <$> canonicalize_dtype config_default (LDType r) false).
Proof.
  apply (proj1 (result_type_dtypes config_default Int16 Float64)).
  left. reflexivity.
Defined.

(** ** Weak results *)

(** X23. A weak result is a default type: when [result_type] returns the
    weak flag set, the dtype is the canonical form of the default
    integer, unsigned, float or complex type, so never bool, never a tag
    of less than 32 bits and never a custom float. *)
Theorem result_type_weak_default (cfg : Config) (args : list Operand) (dt : AnyDType) :
  result_type cfg args true = Ok (RPair dt true) →
  ∃ k default, k ∈ [kind_i; kind_u; kind_f; kind_c]
    ∧ _default_types cfg k = Ok default
    ∧ canonicalize_dtype cfg (LDType default) false = Ok dt.
Proof.
  unfold result_type. destruct (bool_decide (length args = 0)); [done|].
  destruct (_lattice_result_type cfg _) as [[d0 w0]|e] eqn:Hlattice; [|done].
  cbn [mbind res_bind].
  match goal with |- mbind _ ?X = _ → _ => destruct X as [dt'|e] eqn:Hdt end; [|done].
  cbn [mbind res_bind]. intros [= -> ->].
  apply _lattice_result_type_weak in Hlattice.
  destruct d0 as [d|ext]; [|done].
  assert (∀ k, k ∈ [kind_i; kind_u; kind_f; kind_c]
               ↔ k = kind_i ∨ k = kind_u ∨ k = kind_f ∨ k = kind_c) as Hkinds.
  { intros k. rewrite list_elem_of_In. simpl. intuition congruence. }
  set (k := if in_dtypes (ADType d) _custom_float_dtypes then kind_f else kind d).
  assert ((if in_dtypes (ADType d) _custom_float_dtypes then Ok kind_f
           else dtype_kind (ADType d)) = Ok k) as Hk.
  { subst k. by destruct (in_dtypes _ _). }
  rewrite Hk in Hdt. cbn [mbind res_bind] in Hdt.
  destruct (_default_types cfg k) as [default|e] eqn:Hdefault; [|done].
  cbn [mbind res_bind] in Hdt.
  exists k, default. split; [|done]. apply Hkinds.
  unfold _default_types in Hdefault.
  destruct d; vm_compute in k; subst k; try tauto;
    try (by destruct Hlattice); destruct (default_dtype_bits cfg); discriminate Hdefault.
Qed.

Lemma result_type_weak_default_witness :
  result_type config_default [OpArray Int8 true] true = Ok (RPair (ADType Int32) true)
  ∧ ∃ k default, k ∈ [kind_i; kind_u; kind_f; kind_c]
      ∧ _default_types config_default k = Ok default
      ∧ canonicalize_dtype config_default (LDType default) false = Ok (ADType Int32).
Proof.
  assert (result_type config_default [OpArray Int8 true] true
          = Ok (RPair (ADType Int32) true)) as Hr by reflexivity.
  split; [exact Hr|].
  exact (result_type_weak_default config_default _ _ Hr).
Defined.

Lemma mapM_res_Forall2 {A B} (f : A → res B) (l : list A) (l' : list B) :
  mapM f l = Ok l' → Forall2 (λ x y, f x = Ok y) l l'.
Proof.
  revert l'. induction l as [|x l IH]; intros l'; cbn.
  - intros [= <-]. constructor.
  - destruct (f x) as [y|e] eqn:Hx; cbn; [|done].
    destruct (mapM f l) as [k|e]; cbn; [|done].
    intros [= <-]. constructor; [done|]. by apply IH.
Qed.

Lemma strict_weak_bounds_check :
  (λ UB, forallb (λ n,
     bool_decide (n ∈ _weak_types)
     || match UB !! n with
        | Some u => forallb (λ w, negb (bool_decide (w ∈ u))) _weak_types
        | None => true
        end) (_weak_types ++ _jax_types)) (_lattice_upper_bounds strict) = true.
Proof. vm_compute. reflexivity. Qed.

Lemma strict_weak_bounds (n r : JAXType) :
  le_in (_lattice_upper_bounds strict) n r → r ∈ _weak_types → n ∈ _weak_types.
Proof.
  intros (u & Hu & Hr) Hweak.
  assert (n ∈ _weak_types ++ _jax_types) as Hn.
  { apply (_lattice_upper_bounds_known strict). by exists u. }
  pose proof strict_weak_bounds_check as Hcheck. cbv beta in Hcheck.
  rewrite forallb_forall in Hcheck.
  apply list_elem_of_In in Hn. specialize (Hcheck n Hn).
  apply orb_true_iff in Hcheck as [Hin|Hcheck]; [by apply bool_decide_eq_true in Hin|].
  rewrite Hu in Hcheck. rewrite forallb_forall in Hcheck.
  apply list_elem_of_In in Hweak. specialize (Hcheck r Hweak).
  apply negb_true_iff, bool_decide_eq_false in Hcheck. contradiction.
Qed.

Lemma _jax_type_weak (d : AnyDType) (w : bool) (n : JAXType) :
  _jax_type d w = Ok n → n ∈ _weak_types → w = true.
Proof.
  destruct w; [done|]. cbn. intros [= <-] Hin.
  apply list_elem_of_In in Hin. simpl in Hin. destruct d; cbn in Hin;
    repeat (destruct Hin as [Hin|Hin]; [discriminate Hin|]); destruct Hin.
Qed.

Lemma _lattice_result_type_strict_weak (cfg : Config) (args : list Operand) (d : AnyDType) :
  numpy_dtype_promotion cfg = strict →
  _lattice_result_type cfg args = Ok (d, true) →
  ∀ x, x ∈ args → is_weak_class x || is_weakly_typed x = true.
Proof.
  intros Hstrict. unfold _lattice_result_type.
  destruct (mapM (_dtype_and_weaktype cfg) args) as [pairs|e] eqn:Hpairs; [|done].
  apply mapM_res_Forall2 in Hpairs.
  assert (∀ x pw, _dtype_and_weaktype cfg x = Ok pw
                  → pw.2 = is_weak_class x || is_weakly_typed x) as Hflag.
  { intros x pw. unfold _dtype_and_weaktype.
    destruct (dtype cfg x false); [|done]. by intros [= <-]. }
  destruct pairs as [|first rest]; [done|]. cbn [mbind res_bind].
  destruct (bool_decide (length (first :: rest).*1 = 1)) eqn:Hlen.
  { apply bool_decide_eq_true in Hlen. destruct rest; [|done].
    apply Forall2_cons_inv_r in Hpairs as (x0 & args0 & Hx0 & Hnil & ->).
    apply Forall2_nil_inv_r in Hnil as ->.
    cbn [mbind res_bind]. intros [= <- Hweak] x ->%list_elem_of_singleton.
    apply andb_true_iff in Hweak as [_ Hweak]. by rewrite <-(Hflag _ _ Hx0). }
  destruct (bool_decide (size _ = 1) && _).
  { cbn [mbind res_bind]. rewrite andb_false_r. done. }
  rewrite Hstrict, (bool_decide_eq_true_2 (strict = strict)) by done.
  rewrite andb_false_r.
  destruct (mapM _ (first :: rest)) as [nodes|e] eqn:Hnodes; [|done].
  apply mapM_res_Forall2 in Hnodes. cbn [mbind res_bind].
  rewrite least_upper_bound_elements.
  destruct (_least_upper_bound cfg strict nodes) as [r|e] eqn:Hr; [|done].
  cbn [mbind res_bind].
  destruct (dtype cfg (operand_of_node r) false) as [out|e]; [|done].
  cbn [mbind res_bind]. intros [= <- Hweak] x Hx.
  apply andb_true_iff in Hweak as [_ Hweak%bool_decide_eq_true].
  apply least_upper_bound_Ok_inv in Hr as [Hub _].
  apply list_elem_of_lookup in Hx as [i Hi].
  destruct (Forall2_lookup_l _ _ _ _ _ Hpairs Hi) as (pw & Hpw & Hx).
  destruct (Forall2_lookup_l _ _ _ _ _ Hnodes Hpw) as (n & Hn & Hjax).
  rewrite <-(Hflag _ _ Hx). apply (_jax_type_weak _ _ _ Hjax).
  apply (strict_weak_bounds n r); [|done].
  apply Hub, elem_of_list_to_set. by eapply list_elem_of_lookup_2.
Qed.

(** X24. Under the strict policy [result_type] returns the weak flag set
    only when every operand is weakly typed: one strongly typed operand,
    or a [None], makes the result strong. *)
Theorem result_type_strict_weak (cfg : Config) (args : list Operand) (dt : AnyDType) :
  numpy_dtype_promotion cfg = strict →
  result_type cfg args true = Ok (RPair dt true) →
  ∀ x, x ∈ args → is_weak_class x || is_weakly_typed x = true.
Proof.
  intros Hstrict. unfold result_type.
  destruct (bool_decide (length args = 0)); [done|].
  destruct (_lattice_result_type cfg _) as [[d0 w0]|e] eqn:Hlattice; [|done].
  cbn [mbind res_bind].
  match goal with |- mbind _ ?X = _ → _ => destruct X as [dt'|e] end; [|done].
  cbn [mbind res_bind]. intros [= -> ->] x Hx.
  pose proof (_lattice_result_type_strict_weak cfg _ _ Hstrict Hlattice) as Hall.
  specialize (Hall (match x with OpNone => OpScalarClass (float_ cfg) | _ => x end)).
  assert (is_weak_class match x with OpNone => OpScalarClass (float_ cfg) | _ => x end
          || is_weakly_typed match x with OpNone => OpScalarClass (float_ cfg) | _ => x end
          = true) as Hweak.
  { apply Hall, list_elem_of_fmap. by exists x. }
  by destruct x.
Qed.

Lemma result_type_strict_weak_witness :
  result_type config_strict [OpScalar py_int; OpClass py_float] true
  = Ok (RPair (ADType Float32) true)
  ∧ is_weak_class (OpClass py_float) || is_weakly_typed (OpClass py_float) = true.
Proof.
  assert (result_type config_strict [OpScalar py_int; OpClass py_float] true
          = Ok (RPair (ADType Float32) true)) as Hr by (vm_compute; reflexivity).
  split; [exact Hr|].
  apply (result_type_strict_weak config_strict _ _ eq_refl Hr).
  apply list_elem_of_In. simpl. tauto.
Defined.

(** ** Extended dtypes among the operands *)

Lemma mapM_res_Raise {A B} (f : A → res B) (l : list A) (e0 : Exn) :
  (∀ x e, x ∈ l → f x = Raise e → e = e0) →
  (∃ x e, x ∈ l ∧ f x = Raise e) →
  mapM f l = Raise e0.
Proof.
  induction l as [|x l IH]; intros Hall (x' & e' & Hin & Hraise).
  - by apply elem_of_nil in Hin.
  - cbn. destruct (f x) as [y|e] eqn:Hx; cbn.
    + rewrite IH; [done| |].
      * intros x1 e1 Hx1. apply Hall. by right.
      * apply elem_of_cons in Hin as [->|Hin]; [congruence|]. by exists x', e'.
    + f_equal. apply (Hall x); [by left|done].
Qed.

Lemma mapM_res_Ok {A B} (f : A → res B) (l : list A) :
  (∀ x, x ∈ l → ∃ y, f x = Ok y) →
  ∃ l', mapM f l = Ok l' ∧ Forall2 (λ x y, f x = Ok y) l l'.
Proof.
  intros Hall. assert (∃ l', mapM f l = Ok l') as [l' Hl'].
  { induction l as [|x l IH]; [by eexists|].
    destruct (Hall x) as [y Hy]; [by left|].
    destruct IH as [k Hk]; [intros x1 Hx1; apply Hall; by right|].
    exists (y :: k). cbn. by rewrite Hy, Hk. }
  exists l'. split; [done|]. by apply mapM_res_Forall2.
Qed.

Lemma _dtype_and_weaktype_cases (cfg : Config) (x : Operand) :
  match x with
  | OpNone => _dtype_and_weaktype cfg x = Raise ValueError
  | OpExtDType _ => _dtype_and_weaktype cfg x = Raise TypeError
  | OpExtArray e => _dtype_and_weaktype cfg x = Ok (AExt e, false)
  | _ => ∃ d w, _dtype_and_weaktype cfg x = Ok (ADType d, w)
  end.
Proof.
  destruct x as [|c|c|d|d|e|d w|e]; cbn; try done; try by eexists _, _.
  by rewrite issubdtype_extended.
Qed.

Lemma _dtype_and_weaktype_Raise (cfg : Config) (x : Operand) (e : Exn) :
  _dtype_and_weaktype cfg x = Raise e →
  (x = OpNone ∧ e = ValueError) ∨ ((∃ e', x = OpExtDType e') ∧ e = TypeError).
Proof.
  destruct x as [|c|c|d|d|e'|d w|e']; cbn; rewrite ?issubdtype_extended; intros [=]; eauto.
Qed.

Lemma _jax_type_Ok (d : DType) (w : bool) :
  ∃ n, _jax_type (ADType d) w = Ok n.
Proof.
  unfold _jax_type. destruct w; [|by eexists].
  destruct (is_bool _); [by eexists|]. destruct (in_dtypes _ _); by eexists.
Qed.

(** X25. Extended dtypes pass only the trivial promotion. With an array of
    an extended dtype among the operands, [result_type] returns that
    dtype, not weak, when every operand is such an array; it raises
    [TypeError] when an operand is an extended dtype object, and
    [ValueError] in every other case, a [None] operand included. *)
Theorem result_type_extended (cfg : Config) (e : ExtendedDType) (args : list Operand)
    (return_weak_type_flag : bool) :
  OpExtArray e ∈ args →
  result_type cfg args return_weak_type_flag
  = if existsb (λ x, match x with OpExtDType _ => true | _ => false end) args
    then Raise TypeError
    else if bool_decide (Forall (λ x, x = OpExtArray e) args)
    then Ok (if return_weak_type_flag then RPair (AExt e) false else RDType (AExt e))
    else Raise ValueError.
Proof.
  intros He. unfold result_type.
  rewrite bool_decide_eq_false_2 by (by destruct args; [apply elem_of_nil in He|]).
  set (replace := λ arg, match arg with OpNone => OpScalarClass (float_ cfg) | _ => arg end).
  assert (OpExtArray e ∈ replace <$> args) as He'.
  { apply list_elem_of_fmap. by exists (OpExtArray e). }
  destruct (existsb _ args) eqn:Hobj.
  { (* an extended dtype object has no dtype *)
    apply existsb_elem_of in Hobj as (x & Hx & Hobj).
    unfold _lattice_result_type.
    rewrite (mapM_res_Raise _ _ TypeError); [done| |].
    - intros x1 e1 (x0 & -> & _)%list_elem_of_fmap Hraise.
      apply _dtype_and_weaktype_Raise in Hraise as [[Hnone _]|[_ ->]]; [by destruct x0|done].
    - destruct x as [| | | | |e'| |]; try done.
      exists (OpExtDType e'), TypeError. split; [|done].
      apply list_elem_of_fmap. by exists (OpExtDType e'). }
  assert (∀ x, x ∈ replace <$> args →
            (∃ d w, _dtype_and_weaktype cfg x = Ok (ADType d, w))
            ∨ (∃ e', x = OpExtArray e' ∧ _dtype_and_weaktype cfg x = Ok (AExt e', false)))
    as Hargs.
  { intros x1 (x0 & -> & Hx0)%list_elem_of_fmap.
    pose proof (_dtype_and_weaktype_cases cfg (replace x0)) as Hcases.
    destruct x0 as [| | | | |e'| |e']; unfold replace in Hcases |- *; cbv beta iota in Hcases;
      try (by left).
    - apply not_true_iff_false in Hobj. destruct Hobj.
      apply existsb_elem_of. by exists (OpExtDType e').
    - right. by exists e'. }
  destruct (mapM_res_Ok (_dtype_and_weaktype cfg) (replace <$> args)) as (pairs & Hpairs & HF).
  { intros x Hx. destruct (Hargs x Hx) as [(d & w & ->)|(e' & _ & ->)]; by eexists. }
  unfold _lattice_result_type. rewrite Hpairs. cbn [mbind res_bind].
  assert ((AExt e, false) ∈ pairs) as Hpair.
  { apply list_elem_of_lookup in He' as [i Hi].
    destruct (Forall2_lookup_l _ _ _ _ _ HF Hi) as (pw & Hpw & Heq).
    cbn in Heq. rewrite issubdtype_extended in Heq. injection Heq as <-.
    by eapply list_elem_of_lookup_2. }
  destruct pairs as [|first rest]; [by apply elem_of_nil in Hpair|].
  destruct (bool_decide (Forall _ args)) eqn:Hall.
  - (* the trivial promotion *)
    apply bool_decide_eq_true in Hall. rewrite Forall_forall in Hall.
    assert (∀ pw, pw ∈ first :: rest → pw = (AExt e, false)) as Hsame.
    { intros pw [i Hi]%list_elem_of_lookup.
      destruct (Forall2_lookup_r _ _ _ _ _ HF Hi) as (x & Hx & Heq).
      apply list_elem_of_lookup_2, list_elem_of_fmap in Hx as (x0 & -> & Hx0).
      rewrite (Hall x0 Hx0) in Heq. cbn in Heq. rewrite issubdtype_extended in Heq.
      by injection Heq as <-. }
    assert (list_to_set (first :: rest).*1 = ({[AExt e]} : gset AnyDType)) as ->.
    { apply set_eq. intros d. rewrite elem_of_list_to_set, elem_of_singleton, list_elem_of_fmap.
      split.
      - intros (pw & -> & Hpw). by rewrite (Hsame pw Hpw).
      - intros ->. by exists (AExt e, false). }
    assert (forallb id (first :: rest).*2 = false) as ->.
    { cbn. by rewrite (Hsame first) by (by left). }
    rewrite size_singleton, (bool_decide_eq_true_2 (1 = 1)) by done. cbn [negb andb].
    rewrite (Hsame first) by (by left). cbn [fst snd].
    destruct (bool_decide (length _ = 1)); cbn [mbind res_bind is_bool];
      rewrite ?andb_false_r; unfold canonicalize_dtype, _canonicalize_dtype;
      cbn [like_of_dtype]; rewrite issubdtype_extended; reflexivity.
  - (* another dtype among the operands *)
    apply bool_decide_eq_false in Hall.
    apply not_Forall_Exists in Hall; [|apply _].
    apply Exists_exists in Hall as (y & Hy & Hne).
    assert (∃ pw, pw ∈ first :: rest ∧ pw.1 ≠ AExt e) as (pw & Hpw & Hother).
    { assert (replace y ∈ replace <$> args) as Hy' by (apply list_elem_of_fmap; by exists y).
      apply list_elem_of_lookup in Hy' as Hi. destruct Hi as [i Hi].
      destruct (Forall2_lookup_l _ _ _ _ _ HF Hi) as (pw & Hpw & Heq).
      exists pw. split; [by eapply list_elem_of_lookup_2|].
      destruct (Hargs _ Hy') as [(d & w & Hd)|(e' & He'' & Hd)].
      - rewrite Hd in Heq. by injection Heq as <-.
      - rewrite Hd in Heq. injection Heq as <-. cbn. intros [= ->].
        by destruct y. }
    assert (AExt e ∈ (first :: rest).*1) as Hin1.
    { apply list_elem_of_fmap. by exists (AExt e, false). }
    assert (pw.1 ∈ (first :: rest).*1) as Hin2.
    { apply list_elem_of_fmap. by exists pw. }
    rewrite bool_decide_eq_false_2.
    2:{ intros Hlen. destruct ((first :: rest).*1) as [|d0 [|d1 ds]]; try done.
        apply list_elem_of_singleton in Hin1, Hin2. congruence. }
    rewrite (bool_decide_eq_false_2 (size _ = 1)).
    2:{ intros Hsize. apply size_1_elem_of in Hsize as [d0 Hd0].
        apply (elem_of_list_to_set (C:=gset AnyDType)) in Hin1, Hin2.
        rewrite Hd0 in Hin1, Hin2. apply elem_of_singleton in Hin1, Hin2. congruence. }
    assert (forallb id (first :: rest).*2 = false) as ->.
    { apply not_true_iff_false. rewrite forallb_forall. intros Hweak.
      assert (id false = true) as [=]. apply Hweak, list_elem_of_In, list_elem_of_fmap.
      by exists (AExt e, false). }
    cbn [andb].
    destruct (mapM_res_Ok (λ dw : AnyDType * bool, _jax_type dw.1 dw.2) (first :: rest))
      as (nodes & -> & HN).
    { intros [d w] [i Hi]%list_elem_of_lookup.
      destruct (Forall2_lookup_r _ _ _ _ _ HF Hi) as (x & Hx & Heq).
      apply list_elem_of_lookup_2 in Hx.
      destruct (Hargs x Hx) as [(d' & w' & Hd)|(e' & _ & Hd)];
        rewrite Hd in Heq; injection Heq as <- <-; [apply _jax_type_Ok | by eexists]. }
    cbn [mbind res_bind]. rewrite least_upper_bound_elements.
    rewrite (least_upper_bound_unknown _ _ nodes (JExt e)); [done| |].
    + apply list_elem_of_lookup in Hpair as [i Hi].
      destruct (Forall2_lookup_l _ _ _ _ _ HN Hi) as (n & Hn & Heq).
      cbn in Heq. injection Heq as <-. by eapply list_elem_of_lookup_2.
    + intros Hin. apply list_elem_of_In in Hin. simpl in Hin.
      repeat (destruct Hin as [Hin|Hin]; [discriminate Hin|]). exact Hin.
Qed.

Lemma result_type_extended_witness :
  (OpExtArray {| ext_id := 0; ext_type := ext_prng_key |}
   ∈ [OpExtArray {| ext_id := 0; ext_type := ext_prng_key |}; OpDType Int32])
  ∧ result_type config_default
      [OpExtArray {| ext_id := 0; ext_type := ext_prng_key |}; OpDType Int32] false
    = Raise ValueError.
Proof.
  assert (OpExtArray {| ext_id := 0; ext_type := ext_prng_key |}
          ∈ [OpExtArray {| ext_id := 0; ext_type := ext_prng_key |}; OpDType Int32]) as Hin.
  { apply list_elem_of_In. simpl. tauto. }
  split; [exact Hin|].
  exact (eq_trans (result_type_extended config_default _ _ false Hin) eq_refl).
Defined.

(** ** Dtypes requested by the user *)

(** X26. [check_user_dtype_supported] never raises on a dtype of JAX, and
    it warns in exactly one case: a dtype object of 64 bits requested in
    32-bit mode, the warning naming its 32-bit counterpart. The Python
    classes and [None] pass silently, though they stand for 64-bit
    dtypes too. *)
Theorem check_user_dtype_supported_spec (cfg : Config) (dtype : DTypeLike) :
  (∃ r, check_user_dtype_supported cfg dtype = Ok r)
  ∧ ∀ t, check_user_dtype_supported cfg dtype = Ok (Truncated t)
         ↔ enable_x64 cfg = false
           ∧ ∃ d d32, dtype = LDType d ∧ _dtype_to_32bit_dtype d = Some d32
                      ∧ t = ADType d32.
Proof.
  unfold check_user_dtype_supported, canonicalize_dtype. split.
  - destruct dtype as [|c|d|e].
    + by eexists.
    + destruct c; by eexists.
    + destruct (enable_x64 cfg), d; vm_compute; by eexists.
    + rewrite issubdtype_extended. by eexists.
  - intros t. split.
    + destruct dtype as [|c|d|e].
      * discriminate.
      * destruct c; discriminate.
      * destruct (enable_x64 cfg), d; vm_compute; intros [= <-];
          (split; [reflexivity|]); eexists _, _; repeat split; reflexivity.
      * rewrite issubdtype_extended. discriminate.
    + intros (Hx64 & d & d32 & -> & Hd & ->). rewrite Hx64.
      destruct d; try discriminate Hd; injection Hd as <-; reflexivity.
Qed.

Lemma check_user_dtype_supported_spec_witness :
  check_user_dtype_supported config_default (LDType Float64) = Ok (Truncated (ADType Float32))
  ∧ ∃ r, check_user_dtype_supported config_default (LClass py_float) = Ok r.
Proof.
  split.
  - apply (proj2 (check_user_dtype_supported_spec config_default (LDType Float64))).
    split; [reflexivity|]. exists Float64, Float32. split; [reflexivity|].
    split; reflexivity.
  - exact (proj1 (check_user_dtype_supported_spec config_default (LClass py_float))).
Defined.
